(** * Adaptive Python assessment: session record, summary and HTTP handlers

    A shallow embedding of [backend/models/session.py] and of the
    handlers, the start-up check and the session cleanup of
    [backend/app.py], with the properties the specification states about
    them and further properties read off the code. The validation of the
    request body, which pydantic and [uuid.UUID] perform before [answer]
    runs, is not modelled.

    Conventions of the embedding.
    - Python numbers: [int] is [Z]; [float] is a binary64 number, with
      the additions and divisions of the processor (round to nearest,
      ties to even). Converting an [int] to a [float] rounds the same way
      and raises [OverflowError] when the [int] is too large.
    - The built-in [sum] is embedded as CPython runs it; its treatment of
      floats changed with CPython 3.12, so the embedding takes the
      version as a parameter.
    - A Python [dict] with string keys is a [gmap string _]; a Python
      [list] is a [list].
    - A method that may mutate [self] or raise is a computation in the
      monad [Py S], which threads the object and stops at the first
      exception, keeping the state reached at the raise.
    - [datetime.now()] and [uuid.uuid4()] are inputs: each reading is an
      argument of the function that performs it. *)

From Stdlib Require Import PrimFloat SpecFloat.
From Stdlib Require FloatOps.
From Stdlib Require Import ZArith QArith String List Lia.
From stdpp Require Import base option list strings gmap fin_maps.

Open Scope string_scope.
Open Scope Z_scope.

(** ** Python values and exceptions *)

(** The values an evaluation dictionary holds in this model. *)
Inductive pyval :=
| PyNone
| PyInt (z : Z)
| PyFloat (f : float)
| PyStr (s : string).

Definition type_name (v : pyval) : string :=
  match v with
  | PyNone => "NoneType"
  | PyInt _ => "int"
  | PyFloat _ => "float"
  | PyStr _ => "str"
  end.

Inductive exn :=
| ValueError (msg : string)
| KeyError (key : string)
| TypeError (msg : string)
| ZeroDivisionError (msg : string)
| OverflowError (msg : string)
| HTTPException (status_code : Z) (detail : string)
| RuntimeError (msg : string).

(** [str(e)] *)
Definition exn_str (e : exn) : string :=
  match e with
  | ValueError msg => msg
  | KeyError key => "'" ++ key ++ "'"
  | TypeError msg => msg
  | ZeroDivisionError msg => msg
  | OverflowError msg => msg
  | HTTPException _ detail => detail
  | RuntimeError msg => msg
  end.

(** A call that returns or raises. *)
Definition Result (A : Type) : Type := exn + A.

#[global] Instance Result_ret : MRet Result := fun _ a => inr a.
#[global] Instance Result_bind : MBind Result := fun _ _ f m =>
  match m with
  | inl e => inl e
  | inr a => f a
  end.

#[global] Instance Result_fmap : FMap Result := fun _ _ f m =>
  match m with
  | inl e => inl e
  | inr a => inr (f a)
  end.

(** A call on a mutable object of type [S]: the object after the call is
    returned in both outcomes. *)
Definition Py (S A : Type) : Type := S -> Result A * S.

#[global] Instance Py_ret {S} : MRet (Py S) := fun _ a s => (inr a, s).
#[global] Instance Py_bind {S} : MBind (Py S) := fun _ _ f m s =>
  match m s with
  | (inl e, s') => (inl e, s')
  | (inr a, s') => f a s'
  end.

Definition get {S} : Py S S := fun s => (inr s, s).
Definition modify {S} (f : S -> S) : Py S unit := fun s => (inr tt, f s).
Definition raise {S A} (e : exn) : Py S A := fun s => (inl e, s).
Definition lift {S A} (r : Result A) : Py S A := fun s => (r, s).

(** *** Numbers *)

(** The binary64 number nearest to an integer, ties to even; infinite
    when the integer is beyond the range. *)
Definition Z_to_float (z : Z) : float :=
  FloatOps.SF2Prim (binary_normalize FloatOps.prec FloatOps.emax z 0 false).

(** The least magnitude that rounds to infinity: half way between the
    largest binary64 number, [2^1024 - 2^971], and [2^1024]. *)
Definition float_overflow_bound : Z := 2 ^ 1024 - 2 ^ 970.

(** [float(z)], the conversion every mixed operation performs. *)
Definition int_to_float (z : Z) : Result float :=
  if float_overflow_bound <=? Z.abs z then
    inl (OverflowError "int too large to convert to float")
  else inr (Z_to_float z).

Definition Z_to_spec_float (z : Z) : spec_float :=
  match z with
  | Z0 => S754_zero false
  | Zpos m => S754_finite false m 0
  | Zneg m => S754_finite true m 0
  end.

(** [a / b] on two ints: the quotient is rounded once, to the nearest
    binary64 number. *)
Definition int_truediv (a b : Z) : Result float :=
  if b =? 0 then inl (ZeroDivisionError "division by zero")
  else if float_overflow_bound * Z.abs b <=? Z.abs a then
    inl (OverflowError "integer division result too large for a float")
  else
    inr (FloatOps.SF2Prim
           (SFdiv FloatOps.prec FloatOps.emax
              (Z_to_spec_float a) (Z_to_spec_float b))).

(** [a / b] on two floats. *)
Definition float_truediv (a b : float) : Result float :=
  if PrimFloat.eqb b 0 then inl (ZeroDivisionError "float division by zero")
  else inr (a / b)%float.

Definition unsupported (op : string) (a b : pyval) : exn :=
  TypeError ("unsupported operand type(s) for " ++ op ++ ": '"
             ++ type_name a ++ "' and '" ++ type_name b ++ "'").

(** [a + b] *)
Definition py_add (a b : pyval) : Result pyval :=
  match a, b with
  | PyInt x, PyInt y => inr (PyInt (x + y))
  | PyInt x, PyFloat y => x' ← int_to_float x; inr (PyFloat (x' + y))
  | PyFloat x, PyInt y => y' ← int_to_float y; inr (PyFloat (x + y'))
  | PyFloat x, PyFloat y => inr (PyFloat (x + y))
  | PyStr x, PyStr y => inr (PyStr (x ++ y))
  | _, _ => inl (unsupported "+" a b)
  end.

(** [a / b]: true division, always a float. An int divisor is tested
    for zero as an int: no other int converts to the float zero. *)
Definition py_truediv (a b : pyval) : Result pyval :=
  match a, b with
  | PyInt x, PyInt y => PyFloat <$> int_truediv x y
  | PyInt x, PyFloat y =>
      x' ← int_to_float x; PyFloat <$> float_truediv x' y
  | PyFloat x, PyInt y =>
      y' ← int_to_float y;
      if y =? 0 then inl (ZeroDivisionError "float division by zero")
      else inr (PyFloat (x / y'))
  | PyFloat x, PyFloat y => PyFloat <$> float_truediv x y
  | _, _ => inl (unsupported "/" a b)
  end.

(** [d[key]] on a dictionary. *)
Definition subscript {V} (d : gmap string V) (key : string) : Result V :=
  match d !! key with
  | Some v => inr v
  | None => inl (KeyError key)
  end.

(** *** The built-in [sum] *)

(** The float loop of [sum] added one float after the other until
    CPython 3.12, which made it carry a compensation beside the running
    total. *)
Inductive cpython := before_3_12 | from_3_12.

Definition LONG_MIN : Z := - 2 ^ 63.
Definition LONG_MAX : Z := 2 ^ 63 - 1.

Definition fits_long (z : Z) : bool := (LONG_MIN <=? z) && (z <=? LONG_MAX).

(** Where [sum] is: in its loop over C longs, in its loop over C
    doubles, or adding objects one by one. *)
Inductive sum_state :=
| SumLong (i_result : Z)
| SumFloat (f_result c : float)
| SumObject (result : pyval).

(** A float item in the float loop. *)
Definition float_step (version : cpython) (f_result c x : float)
  : float * float :=
  match version with
  | before_3_12 => ((f_result + x)%float, c)
  | from_3_12 =>
      let t := (f_result + x)%float in
      (t,
       if PrimFloat.leb (abs x) (abs f_result)
       then (c + ((f_result - t) + x))%float
       else (c + ((x - t) + f_result))%float)
  end.

(** The total the float loop hands back. *)
Definition float_finish (f_result c : float) : float :=
  if negb (PrimFloat.eqb c 0) && negb (is_nan c || is_infinity c)
  then (f_result + c)%float
  else f_result.

(** After an addition of objects [sum] enters the float loop if the
    result is a float and it has not been through that loop yet. *)
Definition leave_long_loop (result : pyval) : sum_state :=
  match result with
  | PyFloat f => SumFloat f 0
  | _ => SumObject result
  end.

(** One item of the iterable. *)
Definition sum_step (version : cpython) (st : sum_state) (item : pyval)
  : Result sum_state :=
  match st with
  | SumLong i_result =>
      match item with
      | PyInt b =>
          if fits_long b && fits_long (i_result + b)
          then inr (SumLong (i_result + b))
          else leave_long_loop <$> py_add (PyInt i_result) item
      | _ => leave_long_loop <$> py_add (PyInt i_result) item
      end
  | SumFloat f_result c =>
      match item with
      | PyFloat x =>
          let '(f_result, c) := float_step version f_result c x in
          inr (SumFloat f_result c)
      | PyInt b =>
          if fits_long b
          then inr (SumFloat (f_result + Z_to_float b) c)
          else SumObject <$> py_add (PyFloat (float_finish f_result c)) item
      | _ => SumObject <$> py_add (PyFloat (float_finish f_result c)) item
      end
  | SumObject result => SumObject <$> py_add result item
  end.

(** What [sum] returns when the iterable is exhausted. *)
Definition sum_result (st : sum_state) : pyval :=
  match st with
  | SumLong i_result => PyInt i_result
  | SumFloat f_result c => PyFloat (float_finish f_result c)
  | SumObject result => result
  end.

(** [sum(i[key] for i in l)], from the state [st] on: each item is
    looked up and added before the next one is touched. *)
Fixpoint sum_items (version : cpython) (st : sum_state) (key : string)
    (l : list (gmap string pyval)) : Result pyval :=
  match l with
  | [] => inr (sum_result st)
  | i :: l' =>
      v ← subscript i key;
      st' ← sum_step version st v;
      sum_items version st' key l'
  end.

Definition py_sum (version : cpython) (key : string)
    (l : list (gmap string pyval)) : Result pyval :=
  sum_items version (SumLong 0) key l.

(** [len(l)] *)
Definition len {A} (l : list A) : pyval := PyInt (Z.of_nat (length l)).

(** ** models/session.py *)

Module session.

Definition MAX_QUESTIONS : Z := 15.
Definition MIN_QUESTIONS : Z := 5.

(** A reading of [datetime.now()]. *)
Definition datetime : Type := Z.

(** An evaluation dictionary, as appended to the history. *)
Abbreviation evaluation := (gmap string pyval).

Section SessionState.
(** The question objects are produced by the question bank, which is
    outside these files. *)
Context {Question : Type}.

Record SessionState := {
  max_questions : Z;
  bloom_level : Z;
  difficulty : Z;
  question_number : Z;
  current_question : option Question;
  finished : bool;
  history : list evaluation;
  last_misconception : option string;
  created_at : datetime;
  last_activity : datetime
}.

(** The dictionary [summary] returns. *)
Record Summary := {
  final_score : pyval;
  average_accuracy : pyval;
  average_explanation : pyval;
  responses : list evaluation
}.

(** [reset]: every attribute but [max_questions] is assigned; the two
    readings of the clock are [t_created] and [t_activity]. *)
Definition reset (t_created t_activity : datetime) : Py SessionState unit :=
  modify (fun self =>
    {| max_questions := max_questions self;
       bloom_level := 1;
       difficulty := 1;
       question_number := 1;
       current_question := None;
       finished := false;
       history := [];
       last_misconception := None;
       created_at := t_created;
       last_activity := t_activity |}).

(** The object [__init__] receives once [self.max_questions] is
    assigned: no other attribute exists yet, and [reset] assigns them
    all, so the values given here are never read. *)
Definition allocated (mq : Z) : SessionState :=
  {| max_questions := mq;
     bloom_level := 0;
     difficulty := 0;
     question_number := 0;
     current_question := None;
     finished := false;
     history := [];
     last_misconception := None;
     created_at := 0;
     last_activity := 0 |}.

(** [SessionState(max_questions)] *)
Definition __init__ (mq : Z) (t_created t_activity : datetime)
  : Result SessionState :=
  if negb ((MIN_QUESTIONS <=? mq) && (mq <=? MAX_QUESTIONS)) then
    inl (ValueError "max_questions must be between 5 and 15")
  else
    match reset t_created t_activity (allocated mq) with
    | (inl e, _) => inl e
    | (inr _, self) => inr self
    end.

Definition set_history (h : list evaluation) (self : SessionState) :=
  {| max_questions := max_questions self;
     bloom_level := bloom_level self;
     difficulty := difficulty self;
     question_number := question_number self;
     current_question := current_question self;
     finished := finished self;
     history := h;
     last_misconception := last_misconception self;
     created_at := created_at self;
     last_activity := last_activity self |}.

Definition set_last_activity (t : datetime) (self : SessionState) :=
  {| max_questions := max_questions self;
     bloom_level := bloom_level self;
     difficulty := difficulty self;
     question_number := question_number self;
     current_question := current_question self;
     finished := finished self;
     history := history self;
     last_misconception := last_misconception self;
     created_at := created_at self;
     last_activity := t |}.

(** [record_evaluation(e)] *)
Definition record_evaluation (e : evaluation) (now : datetime)
  : Py SessionState unit :=
  modify (fun self => set_history (history self ++ [e]) self);;
  modify (set_last_activity now).

(** The CPython that runs the code; only [sum] depends on it. *)
Variable version : cpython.

(** [summary()] *)
Definition summary : Py SessionState Summary :=
  self ← get;
  match history self with
  | [] =>
      mret {| final_score := PyFloat 0;
              average_accuracy := PyFloat 0;
              average_explanation := PyFloat 0;
              responses := [] |}
  | _ =>
      acc ← lift (s ← py_sum version "accuracy" (history self);
                  py_truediv s (len (history self)));
      exp ← lift (s ← py_sum version "explanation_score" (history self);
                  py_truediv s (len (history self)));
      final ← lift (s ← py_sum version "final_score" (history self);
                    py_truediv s (len (history self)));
      mret {| final_score := final;
              average_accuracy := acc;
              average_explanation := exp;
              responses := history self |}
  end.

End SessionState.

Arguments SessionState : clear implicits.

End session.

(** ** app.py *)

Module app.
Import session.

(** [AnswerRequest]: the validated request body of [/answer]. *)
Record AnswerRequest := {
  student_answer : string;
  explanation : string;
  session_id : string
}.

(** The dictionary [response_data] that [answer] builds from the request. *)
Definition response_data (request : AnswerRequest) : gmap string string :=
  <["student_answer" := student_answer request]>
    (<["explanation" := explanation request]> ∅).

(** [f"{v:.2f}"], of which only the success matters here: the text goes to
    the log. An int is converted to a float first. *)
Definition format_2f (v : pyval) : Result unit :=
  match v with
  | PyInt z => _ ← int_to_float z; inr tt
  | PyFloat _ => inr tt
  | PyStr _ => inl (ValueError "Unknown format code 'f' for object of type 'str'")
  | PyNone => inl (TypeError "unsupported format string passed to NoneType.__format__")
  end.

(** The two [except] clauses every handler ends with: an [HTTPException]
    passes through, anything else becomes a 500 whose detail is [prefix]
    followed by [str(e)]. *)
Definition reraise (prefix : string) (e : exn) : exn :=
  match e with
  | HTTPException _ _ => e
  | _ => HTTPException 500 (prefix ++ exn_str e)
  end.

Section Handlers.
Context {Question : Type}.

(** The CPython that runs the code. *)
Variable version : cpython.

(** [bool(q)] of a question object. *)
Variable question_truthy : Question -> bool.

(** What the engine reads from outside the process in one call: the
    judge's reply, the question bank, the clock. *)
Variable World : Type.

(** [engine.adaptive_engine.next_question(session)] and
    [engine.adaptive_engine.score_response(session, response_data)]:
    imported by [app.py], defined outside these files. Each acts on the
    session object it is given. *)
Variable next_question : World -> Py (SessionState Question) (option Question).
Variable score_response :
  World -> gmap string string -> Py (SessionState Question) evaluation.

(** [SESSIONS] *)
Abbreviation registry := (gmap string (SessionState Question)).

Record StartResponse := {
  start_session_id : string;
  start_question : Question
}.

Inductive AnswerResponse :=
| Finished (evaluation_ : evaluation) (summary_ : @Summary)
| NextQuestion (evaluation_ : evaluation) (next_q : option Question).

(** [not session.current_question] *)
Definition no_current_question (self : SessionState Question) : bool :=
  match current_question self with
  | None => true
  | Some q => negb (question_truthy q)
  end.

(** [start()]: [session_id] is the fresh identifier, [t_created] and
    [t_activity] the clock readings of the constructor. *)
Definition start (w : World) (session_id : string)
    (t_created t_activity : datetime) : Py registry StartResponse :=
  fun SESSIONS =>
    match __init__ MAX_QUESTIONS t_created t_activity with
    | inl e => (inl (reraise "Error starting assessment: " e), SESSIONS)
    | inr session =>
        let SESSIONS := <[session_id := session]> SESSIONS in
        match next_question w session with
        | (inl e, session) =>
            (inl (reraise "Error starting assessment: " e),
             <[session_id := session]> SESSIONS)
        | (inr None, session) =>
            (inl (HTTPException 500 "Failed to load initial question"),
             <[session_id := session]> SESSIONS)
        | (inr (Some question), session) =>
            (inr {| start_session_id := session_id;
                    start_question := question |},
             <[session_id := session]> SESSIONS)
        end
    end.

(** The part of [answer] that works on the session object, from the
    update of [last_activity] to the response; the [del] of a completed
    session is done by [answer] below. *)
Definition answer_session (w : World) (now : datetime)
    (request : AnswerRequest) : Py (SessionState Question) AnswerResponse :=
  modify (set_last_activity now);;
  session ← get;
  if finished session then
    raise (HTTPException 400 "Assessment already completed")
  else if no_current_question session then
    raise (HTTPException 400 "No active question")
  else
    evaluation ← score_response w (response_data request);
    lift (format_2f (default (PyInt 0) (evaluation !! "final_score")));;
    session ← get;
    if finished session then
      summary ← summary version;
      mret (Finished evaluation summary)
    else
      next_q ← next_question w;
      mret (NextQuestion evaluation next_q).

(** [answer(request)] *)
Definition answer (w : World) (now : datetime) (request : AnswerRequest)
  : Py registry AnswerResponse :=
  fun SESSIONS =>
    match SESSIONS !! session_id request with
    | None =>
        (inl (HTTPException 404
                "Session not found. Please start a new assessment."),
         SESSIONS)
    | Some session =>
        match answer_session w now request session with
        | (inl e, session) =>
            (inl (reraise "Error processing answer: " e),
             <[session_id request := session]> SESSIONS)
        | (inr (Finished evaluation summary), _) =>
            (inr (Finished evaluation summary),
             delete (session_id request) SESSIONS)
        | (inr response, session) =>
            (inr response, <[session_id request := session]> SESSIONS)
        end
    end.

(** [del SESSIONS[session_id]] *)
Definition del (session_id : string) : Py registry unit :=
  fun SESSIONS =>
    match SESSIONS !! session_id with
    | Some _ => (inr tt, delete session_id SESSIONS)
    | None => (inl (KeyError session_id), SESSIONS)
    end.

(** The dictionary [get_session_status] returns. *)
Record SessionStatus := {
  status_question_number : Z;
  status_max_questions : Z;
  status_bloom_level : Z;
  status_difficulty : Z;
  status_finished : bool
}.

(** [get_session_status(session_id)] *)
Definition get_session_status (session_id : string)
  : Py registry SessionStatus :=
  fun SESSIONS =>
    match SESSIONS !! session_id with
    | None => (inl (HTTPException 404 "Session not found"), SESSIONS)
    | Some session =>
        (inr {| status_question_number := question_number session;
                status_max_questions := max_questions session;
                status_bloom_level := bloom_level session;
                status_difficulty := difficulty session;
                status_finished := finished session |},
         SESSIONS)
    end.

(** [end_session(session_id)] *)
Definition end_session (session_id : string)
  : Py registry (gmap string string) :=
  fun SESSIONS =>
    match SESSIONS !! session_id with
    | Some _ =>
        (del session_id;;
         mret (<["message" := "Session ended"]> (∅ : gmap string string)))
          SESSIONS
    | None => (inl (HTTPException 404 "Session not found"), SESSIONS)
    end.

(** The dictionary [health_check] returns; [openai_error] is the key that
    is only set when the check of the API fails. *)
Record Health := {
  health_status : string;
  active_sessions : Z;
  openai_status : string;
  openai_error : option string
}.

(** [health_check()]: [models_list] is the outcome of importing the
    client and calling [client.models.list()]. *)
Definition health_check (models_list : Result unit) : Py registry Health :=
  fun SESSIONS =>
    match models_list with
    | inr _ =>
        (inr {| health_status := "healthy";
                active_sessions := Z.of_nat (size SESSIONS);
                openai_status := "connected";
                openai_error := None |},
         SESSIONS)
    | inl e =>
        (inr {| health_status := "degraded";
                active_sessions := Z.of_nat (size SESSIONS);
                openai_status := "disconnected";
                openai_error := Some (exn_str e) |},
         SESSIONS)
    end.

(** [timedelta(hours=h)], in microseconds: the resolution in which
    Python subtracts and compares two datetimes. *)
Definition timedelta (hours : Z) : Z := hours * 3600000000.

(** The list [expired] of [cleanup_expired_sessions]. The dictionary is
    listed in [map_to_list] order, not in insertion order; the order only
    decides in which order the sessions are deleted and logged. *)
Definition expired_sessions (current_time : datetime) (SESSIONS : registry)
  : list string :=
  (filter (fun item => timedelta 1 < current_time - last_activity item.2)
          (map_to_list SESSIONS)).*1.

(** [for sid in expired: del SESSIONS[sid]] *)
Fixpoint del_each (expired : list string) : Py registry unit :=
  match expired with
  | [] => mret tt
  | sid :: rest => del sid;; del_each rest
  end.

(** The [try] block of one round of [cleanup_expired_sessions], run at
    [current_time]. *)
Definition cleanup_try (current_time : datetime) : Py registry unit :=
  fun SESSIONS => del_each (expired_sessions current_time SESSIONS) SESSIONS.

(** One round of the loop of [cleanup_expired_sessions], after its
    [time.sleep(300)]: an exception of the [try] block is logged and
    dropped. *)
Definition cleanup_round (current_time : datetime) : Py registry unit :=
  fun SESSIONS =>
    match cleanup_try current_time SESSIONS with
    | (inl e, SESSIONS) => (inr tt, SESSIONS)
    | (inr _, SESSIONS) => (inr tt, SESSIONS)
    end.

End Handlers.

(** [startup_event()]: [OPENAI_API_KEY] is the environment variable, if
    set, and [models_list] the outcome of importing the client and
    calling [client.models.list()]. *)
Definition startup_event (OPENAI_API_KEY : option string)
    (models_list : Result unit) : Result unit :=
  match OPENAI_API_KEY with
  | None | Some "" =>
      inl (RuntimeError "OPENAI_API_KEY environment variable not set")
  | Some _ =>
      match models_list with
      | inr _ => inr tt
      | inl e =>
          inl (RuntimeError
                 ("OpenAI API key validation failed: " ++ exn_str e))
      end
  end.

End app.

(** ** Vocabulary of the specification *)

Import session app.



(** The float recorded under [key] in an evaluation record, if any. *)
Definition recorded_float (key : string) (e : evaluation) : option float :=
  match e !! key with
  | Some (PyFloat f) => Some f
  | _ => None
  end.







(** The mean of floats as Python computes it with [sum(xs) / len(xs)]:
    the floats are added to 0 from left to right, with the compensation
    of the CPython at hand, and the total is divided once. *)
Definition float_sum (version : cpython) (xs : list float) : float :=
  match xs with
  | [] => 0
  | x :: rest =>
      let '(f_result, c) :=
        fold_left (fun '(f_result, c) x => float_step version f_result c x)
                  rest ((0 + x)%float, 0%float) in
      float_finish f_result c
  end.

Definition float_mean (version : cpython) (xs : list float) : float :=
  (float_sum version xs / Z_to_float (Z.of_nat (length xs)))%float.

(** The methods of [SessionState] that can be called on an existing
    object, and the object each one leaves behind. *)
Inductive method {Question : Type} :=
| call_reset (t_created t_activity : datetime)
| call_record_evaluation (e : evaluation) (now : datetime)
| call_summary.
Arguments method : clear implicits.

Definition after {Question} (version : cpython) (m : method Question)
    (self : SessionState Question) : SessionState Question :=
  match m with
  | call_reset t_created t_activity => (reset t_created t_activity self).2
  | call_record_evaluation e now => (record_evaluation e now self).2
  | call_summary => (summary version self).2
  end.

Definition is_reset {Question} (m : method Question) : bool :=
  match m with
  | call_reset _ _ => true
  | _ => false
  end.

(** The object after a sequence of calls, first call first. *)
Fixpoint after_all {Question} (version : cpython)
    (ms : list (method Question))
    (self : SessionState Question) : SessionState Question :=
  match ms with
  | [] => self
  | m :: ms' => after_all version ms' (after version m self)
  end.

(** The session [SessionState()] builds: the default passes the range
    check. *)
Definition default_session {Question} (t_created t_activity : datetime)
  : SessionState Question :=
  {| max_questions := 15; bloom_level := 1; difficulty := 1;
     question_number := 1; current_question := None;
     finished := false; history := []; last_misconception := None;
     created_at := t_created; last_activity := t_activity |}.

(** ** The evaluation aggregator and the progression policy

    [score_response] is imported from [engine.adaptive_engine], which is
    not among these files. *)

(** What the judge returns (§6). *)
Record judge_scores := {
  judged_accuracy : float;
  judged_explanation : float;
  judged_misconception : option string
}.

(** The configuration constants the specification leaves open (§4.1,
    §4.2, §9). *)
Record policy := {
  weight_accuracy : float;
  weight_explanation : float;
  misconception_threshold : float;
  high_threshold : float;
  low_threshold : float;
  level_max : Z;
  difficulty_min : Z;
  difficulty_max : Z
}.

Section Aggregator.
Context {Question : Type}.
Variable cfg : policy.

(** What the call reads from outside: the judge's reply, absent when
    the judge is unavailable or its output malformed, and the clock. *)
Variable World : Type.
Variable judge_reply : World -> option judge_scores.
Variable evaluated_at : World -> datetime.

(** Modelled from the spec: the record of §4.1, with [final_score] the
    weighted combination of the two sub-scores, and the misconception
    label kept when the accuracy is below the threshold. *)
Definition evaluation_record (scores : judge_scores) : evaluation :=
  let final :=
    (weight_accuracy cfg * judged_accuracy scores
     + weight_explanation cfg * judged_explanation scores)%float in
  let record : evaluation :=
    <["accuracy" := PyFloat (judged_accuracy scores)]>
      (<["explanation_score" := PyFloat (judged_explanation scores)]>
         (<["final_score" := PyFloat final]> ∅)) in
  match judged_misconception scores with
  | Some label =>
      if PrimFloat.ltb (judged_accuracy scores) (misconception_threshold cfg)
      then <["misconception" := PyStr label]> record
      else record
  | None => record
  end.

(** Modelled from the spec: [advance] of §4.2. A score above the high
    threshold raises the difficulty by one step, or the level when the
    difficulty is at its maximum; a score below the low threshold lowers
    the difficulty by one step and never the level; the session is to
    finish when the question counter, after its increment, would exceed
    [max_questions]. *)
Definition advance (self : SessionState Question) (final : float)
  : Z * Z * bool :=
  let should_finish := max_questions self <? question_number self + 1 in
  if PrimFloat.ltb (high_threshold cfg) final then
    if difficulty self <? difficulty_max cfg
    then (bloom_level self, difficulty self + 1, should_finish)
    else (Z.min (bloom_level self + 1) (level_max cfg), difficulty self,
          should_finish)
  else if PrimFloat.ltb final (low_threshold cfg) then
    (bloom_level self, Z.max (difficulty self - 1) (difficulty_min cfg),
     should_finish)
  else (bloom_level self, difficulty self, should_finish).

(** Modelled from the spec: [score_response] of the engine module, as
    the aggregator of §4.1 followed by the policy of §4.2. Without a
    pending question or on a finished session it fails; when the judge
    is unavailable or its output malformed it fails and the session is
    left unmodified; otherwise the record is appended to the history,
    [last_misconception] is overwritten, [last_activity] updated,
    [current_question] cleared, and the level, the difficulty and the
    finished flag are set as the policy decides. *)
Definition score_response_spec (w : World) (data : gmap string string)
  : Py (SessionState Question) evaluation :=
  self ← get;
  match current_question self, finished self with
  | Some _, false =>
      match judge_reply w with
      | None => raise (RuntimeError "EvaluationUnavailable")
      | Some scores =>
          let record := evaluation_record scores in
          let final :=
            (weight_accuracy cfg * judged_accuracy scores
             + weight_explanation cfg * judged_explanation scores)%float in
          record_evaluation record (evaluated_at w);;
          modify (fun self =>
            let '(level, difficulty', should_finish) := advance self final in
            {| max_questions := max_questions self;
               bloom_level := level;
               difficulty := difficulty';
               question_number := question_number self;
               current_question := None;
               finished := finished self || should_finish;
               history := history self;
               last_misconception :=
                 match record !! "misconception" with
                 | Some (PyStr label) => Some label
                 | _ => None
                 end;
               created_at := created_at self;
               last_activity := last_activity self |});;
          mret record
      end
  | _, _ => raise (RuntimeError "InvalidSessionState")
  end.

End Aggregator.

(** ** Concrete sessions and collaborators

    Used to run the model on explicit inputs. Questions are plain strings
    here, and every question is truthy. *)

Definition record_of (accuracy explanation_score final : float) : evaluation :=
  <["accuracy" := PyFloat accuracy]>
    (<["explanation_score" := PyFloat explanation_score]>
       (<["final_score" := PyFloat final]> ∅)).

Definition fresh15 : SessionState string :=
  {| max_questions := 15; bloom_level := 1; difficulty := 1;
     question_number := 1; current_question := None; finished := false;
     history := []; last_misconception := None;
     created_at := 100; last_activity := 100 |}.

(** A session that has answered two questions and waits on a third. *)
Definition two_answers : SessionState string :=
  {| max_questions := 5; bloom_level := 1; difficulty := 2;
     question_number := 3; current_question := Some "What is a list?";
     finished := false;
     history := [record_of 1 0.5 0.75; record_of 0 0.5 0.25];
     last_misconception := None;
     created_at := 100; last_activity := 160 |}.

(** A completed session. *)
Definition completed : SessionState string :=
  {| max_questions := 5; bloom_level := 2; difficulty := 3;
     question_number := 6; current_question := None; finished := true;
     history := [record_of 1 1 1];
     last_misconception := None;
     created_at := 100; last_activity := 200 |}.



(** Modelled from the spec: [score_response] of the engine module, which
    is not among these files, in the case §4.1 calls error handling: the
    judge is unavailable, the call fails and the session is left
    unmodified. *)
Definition score_response_unavailable
  : option string -> gmap string string -> Py (SessionState string) evaluation :=
  fun _ _ => raise (RuntimeError "EvaluationUnavailable").

(** Modelled from the spec: [next_question] of the engine module, which
    is not among these files (§4.3): a question found by the bank becomes
    [current_question] and [question_number] is incremented once; when
    the bank has nothing, the session is finished and no question is
    returned. The bank's reply is the world the call reads. *)
Definition next_question_bank
  : option string -> Py (SessionState string) (option string) :=
  fun reply self =>
    match reply with
    | Some q =>
        (inr (Some q),
         {| max_questions := max_questions self;
            bloom_level := bloom_level self;
            difficulty := difficulty self;
            question_number := question_number self + 1;
            current_question := Some q;
            finished := finished self;
            history := history self;
            last_misconception := last_misconception self;
            created_at := created_at self;
            last_activity := last_activity self |})
    | None =>
        (inr None,
         {| max_questions := max_questions self;
            bloom_level := bloom_level self;
            difficulty := difficulty self;
            question_number := question_number self;
            current_question := current_question self;
            finished := true;
            history := history self;
            last_misconception := last_misconception self;
            created_at := created_at self;
            last_activity := last_activity self |})
    end.

Definition always_truthy (q : string) : bool := true.

Definition a_request : AnswerRequest :=
  {| student_answer := "a = [1, 2]";
     explanation := "square brackets build a list";
     session_id := "3f2b8c1e-5d47-4a9b-8c3d-2e1f0a9b7c6d" |}.

Definition one_session (s : SessionState string) : gmap string (SessionState string) :=
  {[ session_id a_request := s ]}.

(** A submission to the completed session at time 500, and one to the
    waiting session while the judge is unavailable. *)
Definition submit_to (s : SessionState string) (now : datetime)
  : Result (AnswerResponse (Question := string))
    * gmap string (SessionState string) :=
  answer from_3_12 always_truthy (option string) next_question_bank
    score_response_unavailable None now a_request (one_session s).

(** A configuration of the aggregator and the policy, and a world in
    which the judge is unavailable at time 500. *)
Definition a_policy : policy :=
  {| weight_accuracy := 0.5; weight_explanation := 0.5;
     misconception_threshold := 0.5;
     high_threshold := 0.75; low_threshold := 0.25;
     level_max := 6; difficulty_min := 1; difficulty_max := 3 |}.

Definition judge_down : option judge_scores * datetime * option string :=
  (None, 500, Some "What is a dict?").

(** A submission handled by the aggregator of the specification. *)
Definition submit_spec (w : option judge_scores * datetime * option string)
    (s : SessionState string) (now : datetime)
  : Result (AnswerResponse (Question := string))
    * gmap string (SessionState string) :=
  answer from_3_12 always_truthy
    (option judge_scores * datetime * option string)
    (fun w => next_question_bank w.2)
    (score_response_spec a_policy _ (fun w => w.1.1) (fun w => w.1.2))
    w now a_request (one_session s).

(** ** Vocabulary for sequences of recordings and for missing scores *)

(** [record_evaluation] called once per pair, first pair first. *)
Fixpoint record_all {Question} (es : list (evaluation * datetime))
  : Py (SessionState Question) unit :=
  match es with
  | [] => mret tt
  | (e, now) :: rest => record_evaluation e now;; record_all rest
  end.

(** The keys [summary] reads, in the order it reads them. *)
Definition score_keys : list string :=
  ["accuracy"; "explanation_score"; "final_score"].

Definition lacks (key : string) (e : evaluation) : bool :=
  match e !! key with
  | None => true
  | Some _ => false
  end.

(** Under [key] the record holds a number, or nothing. *)
Definition number_or_absent (key : string) (e : evaluation) : bool :=
  match e !! key with
  | None => true
  | Some (PyInt _) | Some (PyFloat _) => true
  | Some _ => false
  end.

(** Under [key] the record holds a float, or nothing. *)
Definition float_or_absent (key : string) (e : evaluation) : bool :=
  match e !! key with
  | None => true
  | Some (PyFloat _) => true
  | Some _ => false
  end.

(** The first key, in reading order, that some record of the history
    does not have. *)
Definition first_missing (h : list evaluation) : option string :=
  List.find (fun key => existsb (lacks key) h) score_keys.

(** A record without [explanation_score]. *)
Definition partial_record : evaluation :=
  <["accuracy" := PyFloat 1]> (<["final_score" := PyFloat 0.5]> ∅).

Definition with_partial_record : SessionState string :=
  set_history [record_of 1 1 1; partial_record] two_answers.

(** What the engine reads from outside in one call, for the concrete
    runs below: the judge's reply, if it is available, the time of the
    recording, and the bank's reply. *)
Record engine_world := {
  judge_reply : option evaluation;
  judge_time : datetime;
  bank_reply : option string
}.

(** Modelled from the spec: [score_response] of the engine module, which
    is not among these files (§4.1, §4.2): when the judge replies, its
    record is appended to the history and [last_activity] is updated,
    [last_misconception] is overwritten with the judge's label, if any,
    [current_question] is cleared, and the session is finished once
    [question_number] exceeds [max_questions]; when the judge is
    unavailable the call fails and the session is left unmodified. *)
Definition score_response_judge (w : engine_world) (data : gmap string string)
  : Py (SessionState string) evaluation :=
  match judge_reply w with
  | None => raise (RuntimeError "EvaluationUnavailable")
  | Some ev =>
      record_evaluation ev (judge_time w);;
      modify (fun self =>
        {| max_questions := max_questions self;
           bloom_level := bloom_level self;
           difficulty := difficulty self;
           question_number := question_number self;
           current_question := None;
           finished := max_questions self <? question_number self;
           history := history self;
           last_misconception :=
             match ev !! "misconception" with
             | Some (PyStr label) => Some label
             | _ => None
             end;
           created_at := created_at self;
           last_activity := last_activity self |});;
      mret ev
  end.

Definition next_question_engine (w : engine_world)
  : Py (SessionState string) (option string) :=
  next_question_bank (bank_reply w).

(** A session waiting on its last question. *)
Definition last_question : SessionState string :=
  {| max_questions := 5; bloom_level := 2; difficulty := 3;
     question_number := 6; current_question := Some "What is a closure?";
     finished := false;
     history := [record_of 1 1 1];
     last_misconception := None;
     created_at := 100; last_activity := 900 |}.

(** The judge scores the answer 0, 1/2, 1/4; the bank has a next
    question. *)
Definition judged : engine_world :=
  {| judge_reply := Some (record_of 0 0.5 0.25);
     judge_time := 1001;
     bank_reply := Some "What is a dict?" |}.

(** The judge's reply has a label where the final score should be. *)
Definition misjudged : engine_world :=
  {| judge_reply := Some (<["final_score" := PyStr "n/a"]> (record_of 0 0 0));
     judge_time := 1001;
     bank_reply := Some "What is a dict?" |}.

(** A submission to a single registered session, with this engine. *)
Definition submit_with (w : engine_world) (s : SessionState string)
    (now : datetime)
  : Result (AnswerResponse (Question := string))
    * gmap string (SessionState string) :=
  answer from_3_12 always_truthy engine_world next_question_engine
    score_response_judge w now a_request (one_session s).

(** The summary of [last_question] once the judge's record is added. *)
Definition last_summary : Summary :=
  {| final_score := PyFloat 0.625;
     average_accuracy := PyFloat 0.5;
     average_explanation := PyFloat 0.75;
     responses := [record_of 1 1 1; record_of 0 0.5 0.25] |}.

(** An hour and a half, in microseconds. *)
Definition ninety_minutes : Z := 5400000000.

(** ** Running the two monads *)

Lemma bind_inr {A B} (a : A) (f : A -> Result B) : inr a ≫= f = f a.
Proof. reflexivity. Qed.

Lemma bind_inl {A B} (e : exn) (f : A -> Result B) : inl e ≫= f = inl e.
Proof. reflexivity. Qed.

Lemma run_bind {S A B} (m : Py S A) (f : A -> Py S B) (s : S) :
  (m ≫= f) s = match m s with
               | (inl e, s') => (inl e, s')
               | (inr a, s') => f a s'
               end.
Proof. reflexivity. Qed.

Lemma run_ret {S A} (a : A) (s : S) : (mret a : Py S A) s = (inr a, s).
Proof. reflexivity. Qed.

Create Rewrite HintDb py.
#[local] Hint Rewrite @bind_inr @bind_inl @run_bind @run_ret : py.

(** Unfolds one layer of sequencing and reduces the calls that are
    already values. *)
Ltac py_run :=
  repeat (autorewrite with py; unfold get, modify, raise, lift; cbn beta iota).

(** ** Numbers within range *)

Lemma long_below_overflow : LONG_MAX < float_overflow_bound.
Proof. reflexivity. Qed.

Lemma int_to_float_in_range (z : Z) :
  Z.abs z <= LONG_MAX -> int_to_float z = inr (Z_to_float z).
Proof.
  intros Hz. unfold int_to_float.
  destruct (Z.leb_spec float_overflow_bound (Z.abs z)) as [Hge|_];
    [|reflexivity].
  pose proof long_below_overflow. lia.
Qed.

Lemma Z_to_float_0 : Z_to_float 0 = 0%float.
Proof. reflexivity. Qed.

(** ** Properties of [models/session.py] *)

Section SessionFacts.
Context {Question : Type}.
Variable version : cpython.
Implicit Types (self s : SessionState Question) (e : evaluation).

Local Abbreviation summary := (session.summary version).
Local Abbreviation after := (after version).
Local Abbreviation after_all := (after_all version).

Lemma recorded_float_lookup (key : string) e (x : float) :
  recorded_float key e = Some x -> e !! key = Some (PyFloat x).
Proof.
  unfold recorded_float.
  destruct (e !! key) as [[| | |]|]; try discriminate.
  intros [= ->]. reflexivity.
Qed.

(** The float loop of [sum] over records that all carry a float under
    [key]: it never raises, and folds the floats into the running total
    and its compensation. *)
Lemma sum_items_float_loop (key : string) (l : list evaluation) :
  forall (xs : list float) (f_result c : float),
    mapM (recorded_float key) l = Some xs ->
    sum_items version (SumFloat f_result c) key l
    = inr (PyFloat
             (let '(f_result, c) :=
                fold_left
                  (fun '(f_result, c) x => float_step version f_result c x)
                  xs (f_result, c) in
              float_finish f_result c)).
Proof.
  induction l as [|i l IH]; intros xs f_result c Hxs.
  - injection Hxs as <-. reflexivity.
  - apply mapM_Some in Hxs. inversion Hxs as [|? x ? xs' Hx Hrest]; subst.
    apply mapM_Some in Hrest. apply recorded_float_lookup in Hx.
    cbn [sum_items]. unfold subscript. rewrite Hx, bind_inr.
    cbn [sum_step fold_left].
    destruct (float_step version f_result c x) as [f_result' c'].
    rewrite bind_inr. apply IH, Hrest.
Qed.

(** [sum] over one or more such records is the float sum. *)
Lemma py_sum_floats (key : string) (l : list evaluation) (xs : list float) :
  (1 <= length l)%nat ->
  mapM (recorded_float key) l = Some xs ->
  py_sum version key l = inr (PyFloat (float_sum version xs)).
Proof.
  intros Hlen Hxs. destruct l as [|i l]; [simpl in Hlen; lia|].
  apply mapM_Some in Hxs. inversion Hxs as [|? x ? xs' Hx Hrest]; subst.
  apply mapM_Some in Hrest. apply recorded_float_lookup in Hx.
  unfold py_sum. cbn [sum_items]. unfold subscript. rewrite Hx, bind_inr.
  cbn [sum_step py_add].
  rewrite (int_to_float_in_range 0) by (unfold LONG_MAX; simpl; lia).
  rewrite bind_inr, Z_to_float_0. cbn [fmap Result_fmap leave_long_loop].
  rewrite bind_inr.
  apply (sum_items_float_loop key l xs' _ _ Hrest).
Qed.

(** One aggregate of [summary]: the sum under [key] divided by the
    length is the float mean. *)
Lemma mean_of_floats (key : string) (l : list evaluation) (xs : list float) :
  (1 <= length l)%nat ->
  Z.of_nat (length l) <= LONG_MAX ->
  mapM (recorded_float key) l = Some xs ->
  (s ← py_sum version key l; py_truediv s (len l))
  = inr (PyFloat (float_mean version xs)).
Proof.
  intros Hlen Hmax Hxs.
  rewrite (py_sum_floats key l xs Hlen Hxs), bind_inr.
  unfold len, py_truediv.
  rewrite int_to_float_in_range by lia. rewrite bind_inr.
  destruct (Z.eqb_spec (Z.of_nat (length l)) 0) as [Hz|_]; [lia|].
  unfold float_mean.
  assert (Hn : length xs = length l).
  { apply mapM_Some in Hxs. symmetry. eapply Forall2_length, Hxs. }
  rewrite Hn. reflexivity.
Qed.

(** [summary] on a history whose records all carry the three scores as
    floats: it returns, with the three float means and the history
    itself. *)
Lemma summary_recorded s (accs exps fins : list float) :
  (1 <= length (history s))%nat ->
  Z.of_nat (length (history s)) <= LONG_MAX ->
  mapM (recorded_float "accuracy") (history s) = Some accs ->
  mapM (recorded_float "explanation_score") (history s) = Some exps ->
  mapM (recorded_float "final_score") (history s) = Some fins ->
  summary s = (inr {| final_score := PyFloat (float_mean version fins);
                      average_accuracy := PyFloat (float_mean version accs);
                      average_explanation := PyFloat (float_mean version exps);
                      responses := history s |}, s).
Proof.
  intros Hlen Hmax Ha He Hf.
  pose proof (mean_of_floats _ _ _ Hlen Hmax Ha) as Hacc.
  pose proof (mean_of_floats _ _ _ Hlen Hmax He) as Hexp.
  pose proof (mean_of_floats _ _ _ Hlen Hmax Hf) as Hfinal.
  unfold session.summary. py_run.
  destruct (history s) as [|e h] eqn:Hh; [simpl in Hlen; lia|].
  py_run. rewrite Hacc. py_run. rewrite Hexp. py_run. rewrite Hfinal.
  reflexivity.
Qed.















(** C2. On an empty history [summary] returns (it does not raise, so
    nothing is divided by zero): the three aggregates are 0.0 and the
    response list is empty. *)
Theorem summary_empty_history s :
  history s = [] ->
  (summary s).1 = inr {| final_score := PyFloat 0;
                         average_accuracy := PyFloat 0;
                         average_explanation := PyFloat 0;
                         responses := [] |}.
Proof.
  intros Hh. unfold session.summary. py_run. rewrite Hh. reflexivity.
Qed.

(** [summary] returns when every record carries the three scores as
    floats. *)
Lemma summary_returns s (accs exps fins : list float) :
  Z.of_nat (length (history s)) <= LONG_MAX ->
  mapM (recorded_float "accuracy") (history s) = Some accs ->
  mapM (recorded_float "explanation_score") (history s) = Some exps ->
  mapM (recorded_float "final_score") (history s) = Some fins ->
  exists r, (summary s).1 = inr r.
Proof.
  intros Hmax Ha He Hf.
  destruct (Nat.eq_dec (length (history s)) 0%nat) as [Hz|Hnz].
  - apply length_zero_iff_nil in Hz. eexists.
    unfold session.summary. py_run. rewrite Hz. reflexivity.
  - rewrite (summary_recorded s accs exps fins) by (assumption || lia).
    eexists. reflexivity.
Qed.

(** [summary] leaves [self] as it is, whether it returns or raises. *)
Lemma summary_state s : (summary s).2 = s.
Proof.
  unfold session.summary. py_run.
  destruct (history s) as [|e h]; [reflexivity|].
  py_run.
  destruct (_ ≫= _) as [?|acc]; py_run; [reflexivity|].
  destruct (_ ≫= _) as [?|exp]; py_run; [reflexivity|].
  destruct (_ ≫= _) as [?|final]; py_run; reflexivity.
Qed.

(** C8. Whatever the session, the response list [summary] returns is
    the history: same records, same order, nothing dropped; and
    [summary] does return when every record carries the three scores as
    floats, the history being a Python list, whose length fits in a C
    long. *)
Theorem summary_responses_are_history s :
  (forall r, (summary s).1 = inr r -> responses r = history s)
  /\ (forall accs exps fins,
        Z.of_nat (length (history s)) <= LONG_MAX ->
        mapM (recorded_float "accuracy") (history s) = Some accs ->
        mapM (recorded_float "explanation_score") (history s) = Some exps ->
        mapM (recorded_float "final_score") (history s) = Some fins ->
        exists r, (summary s).1 = inr r /\ responses r = history s).
Proof.
  assert (Hany : forall r, (summary s).1 = inr r -> responses r = history s).
  { unfold session.summary. py_run.
    destruct (history s) as [|e h] eqn:Hh.
    - intros r [= <-]. reflexivity.
    - py_run.
      destruct (_ ≫= _) as [?|acc]; py_run; [discriminate|].
      destruct (_ ≫= _) as [?|exp]; py_run; [discriminate|].
      destruct (_ ≫= _) as [?|final]; py_run; [discriminate|].
      intros r [= <-]. reflexivity. }
  split; [exact Hany|].
  intros accs exps fins Hmax Ha He Hf.
  destruct (summary_returns s accs exps fins Hmax Ha He Hf) as [r Hr].
  exists r. split; [exact Hr | apply Hany, Hr].
Qed.

(** C10. [summary] does not mutate the session: each field reads the
    same after the call as before it. *)
Theorem summary_does_not_mutate s :
  let s' := (summary s).2 in
  max_questions s' = max_questions s
  /\ bloom_level s' = bloom_level s
  /\ difficulty s' = difficulty s
  /\ question_number s' = question_number s
  /\ current_question s' = current_question s
  /\ finished s' = finished s
  /\ history s' = history s
  /\ last_misconception s' = last_misconception s
  /\ created_at s' = created_at s
  /\ last_activity s' = last_activity s.
Proof.
  cbv zeta. rewrite summary_state. repeat split.
Qed.


(** What the constructor returns when it returns. *)
Lemma init_inr (mq : Z) (t_created t_activity : datetime) s :
  __init__ mq t_created t_activity = inr s ->
  s = {| max_questions := mq; bloom_level := 1; difficulty := 1;
         question_number := 1; current_question := None;
         finished := false; history := []; last_misconception := None;
         created_at := t_created; last_activity := t_activity |}.
Proof.
  unfold __init__. destruct (negb _); [discriminate|].
  unfold reset, modify. simpl. intros [= <-]. reflexivity.
Qed.

(** C4. The constructor accepts exactly the integers of the inclusive
    range [MIN_QUESTIONS .. MAX_QUESTIONS]: inside it a session is
    returned that stores the value; outside it [ValueError] is raised
    and no session is returned. *)
Theorem init_accepts_exactly_the_range
    (mq : Z) (t_created t_activity : datetime) :
  (MIN_QUESTIONS <= mq <= MAX_QUESTIONS ->
     exists s : SessionState Question,
       __init__ mq t_created t_activity = inr s /\ max_questions s = mq)
  /\ (~ (MIN_QUESTIONS <= mq <= MAX_QUESTIONS) ->
        exists msg,
          __init__ (Question := Question) mq t_created t_activity
          = inl (ValueError msg)).
Proof.
  unfold __init__, MIN_QUESTIONS, MAX_QUESTIONS. split; intros H.
  - replace ((5 <=? mq) && (mq <=? 15)) with true
      by (symmetry; apply andb_true_intro; split; apply Z.leb_le; lia).
    simpl. eexists. split; reflexivity.
  - replace ((5 <=? mq) && (mq <=? 15)) with false.
    + simpl. eexists. reflexivity.
    + symmetry. apply andb_false_iff.
      destruct (Z.leb_spec 5 mq); [right | left; reflexivity].
      apply Z.leb_gt. lia.
Qed.

(** C7. A freshly constructed session has bloom level, difficulty and
    question number 1, is not finished, has an empty history, no
    current question and no last misconception. *)
Theorem fresh_session_defaults (mq : Z) (t_created t_activity : datetime) s :
  __init__ mq t_created t_activity = inr s ->
  bloom_level s = 1
  /\ difficulty s = 1
  /\ question_number s = 1
  /\ finished s = false
  /\ history s = []
  /\ current_question s = None
  /\ last_misconception s = None.
Proof.
  intros H. apply init_inr in H. subst s. repeat split.
Qed.

(** A call other than [reset] extends the history at its end, by the
    record for [record_evaluation] and by nothing for [summary]. *)
Lemma after_extends_history (m : method Question) s :
  is_reset m = false ->
  history s `prefix_of` history (after m s).
Proof.
  destruct m as [| e now |]; simpl; intros Hm; [discriminate | |].
  - exists [e]. reflexivity.
  - rewrite summary_state. reflexivity.
Qed.

Lemma after_all_extends_history (ms : list (method Question)) :
  forall s,
    forallb (fun m => negb (is_reset m)) ms = true ->
    history s `prefix_of` history (after_all ms s).
Proof.
  induction ms as [|m ms IH]; intros s Hms; simpl in *.
  - reflexivity.
  - apply andb_prop in Hms as [Hm Hms].
    apply negb_true_iff in Hm.
    etransitivity; [apply after_extends_history, Hm | apply IH, Hms].
Qed.

(** C6, as amended. [record_evaluation] leaves the previous history with
    exactly the new record appended at its end, and through any sequence
    of calls of [record_evaluation] and [summary] the existing entries
    stay in place, in order, as a prefix of the later history; [reset]
    empties the history. *)
Theorem history_append_only_but_for_reset s :
  (forall e now,
     history (after (call_record_evaluation e now) s)
     = (history s ++ [e])%list)
  /\ (forall ms : list (method Question),
        forallb (fun m => negb (is_reset m)) ms = true ->
        history s `prefix_of` history (after_all ms s))
  /\ (forall t_created t_activity,
        history (after (call_reset t_created t_activity) s) = []).
Proof.
  split; [|split].
  - intros e now. reflexivity.
  - intros ms Hms. apply after_all_extends_history, Hms.
  - intros t_created t_activity. reflexivity.
Qed.

End SessionFacts.

(** *** On explicit sessions *)



Lemma summary_empty_history_fresh15 :
  history fresh15 = []
  /\ (summary from_3_12 fresh15).1
     = inr {| final_score := PyFloat 0;
              average_accuracy := PyFloat 0;
              average_explanation := PyFloat 0;
              responses := [] |}.
Proof.
  split; [reflexivity | apply summary_empty_history; reflexivity].
Defined.

Lemma summary_responses_two_answers :
  exists r, (summary from_3_12 two_answers).1 = inr r
            /\ responses r = history two_answers.
Proof.
  apply (proj2 (summary_responses_are_history from_3_12 two_answers)
           [1; 0]%float [0.5; 0.5]%float [0.75; 0.25]%float).
  - vm_compute. discriminate.
  - reflexivity.
  - reflexivity.
  - reflexivity.
Defined.

Lemma init_range_at_5_and_16 :
  (exists s : SessionState string,
     __init__ 5 100 100 = inr s /\ max_questions s = 5)
  /\ (exists msg,
        __init__ (Question := string) 16 100 100 = inl (ValueError msg)).
Proof.
  split.
  - apply (proj1 (init_accepts_exactly_the_range 5 100 100)).
    unfold MIN_QUESTIONS, MAX_QUESTIONS. lia.
  - apply (proj2 (init_accepts_exactly_the_range 16 100 100)).
    unfold MIN_QUESTIONS, MAX_QUESTIONS. lia.
Defined.

Lemma fresh_session_defaults_fresh15 :
  __init__ 15 100 100 = inr fresh15
  /\ bloom_level fresh15 = 1
  /\ difficulty fresh15 = 1
  /\ question_number fresh15 = 1
  /\ finished fresh15 = false
  /\ history fresh15 = []
  /\ current_question fresh15 = None
  /\ last_misconception fresh15 = None.
Proof.
  split; [reflexivity|].
  apply (fresh_session_defaults 15 100 100). reflexivity.
Defined.

Lemma history_append_only_two_answers :
  history two_answers
    `prefix_of`
  history (after_all from_3_12
             [call_summary;
              call_record_evaluation (record_of 1 1 1) 170;
              call_summary] two_answers).
Proof.
  apply (proj1 (proj2 (history_append_only_but_for_reset from_3_12
                         two_answers))).
  reflexivity.
Defined.

(** Counterexample to C6 as first stated: were every method to keep the existing entries,
    the history before a call would be a prefix of the history after it.
    [reset] on a session that has a record breaks this. *)
Lemma reset_truncates_history :
  history completed = [record_of 1 1 1]
  /\ history (after from_3_12 (call_reset 300 300) completed) = []
  /\ ~ (history completed `prefix_of`
          history (after from_3_12 (call_reset 300 300) completed)).
Proof.
  split; [reflexivity|]. split; [reflexivity|].
  intros [k Hk]. discriminate Hk.
Qed.

(** ** Properties of the handlers of [app.py] *)

Section HandlerFacts.
Context {Question : Type}.
Variable version : cpython.
Variable question_truthy : Question -> bool.
Variable World : Type.
Variable next_question : World -> Py (SessionState Question) (option Question).
Variable score_response :
  World -> gmap string string -> Py (SessionState Question) evaluation.

Implicit Types (s : SessionState Question) (request : AnswerRequest)
  (SESSIONS : gmap string (SessionState Question)).

Local Abbreviation answer_session :=
  (answer_session version question_truthy World next_question score_response).
Local Abbreviation answer :=
  (answer version question_truthy World next_question score_response).
Local Abbreviation start := (start World next_question).

(** The three ways [answer] fails before or at the evaluation. In each
    the session object has had [last_activity] assigned and nothing
    else. *)
Lemma answer_session_finished w now request s :
  finished s = true ->
  answer_session w now request s
  = (inl (HTTPException 400 "Assessment already completed"),
     set_last_activity now s).
Proof.
  intros Hfin. unfold app.answer_session. py_run. simpl. rewrite Hfin.
  reflexivity.
Qed.

Lemma answer_session_no_question w now request s :
  finished s = false ->
  no_current_question question_truthy s = true ->
  answer_session w now request s
  = (inl (HTTPException 400 "No active question"), set_last_activity now s).
Proof.
  intros Hfin Hq. unfold app.answer_session. py_run. simpl. rewrite Hfin.
  change (no_current_question question_truthy (set_last_activity now s))
    with (no_current_question question_truthy s).
  rewrite Hq. reflexivity.
Qed.

Lemma answer_session_evaluation_raises w now request s e s' :
  finished s = false ->
  no_current_question question_truthy s = false ->
  score_response w (response_data request) (set_last_activity now s)
  = (inl e, s') ->
  answer_session w now request s = (inl e, s').
Proof.
  intros Hfin Hq Hscore. unfold app.answer_session. py_run. simpl.
  rewrite Hfin.
  change (no_current_question question_truthy (set_last_activity now s))
    with (no_current_question question_truthy s).
  rewrite Hq. py_run. rewrite Hscore. reflexivity.
Qed.

Lemma no_current_question_None s :
  current_question s = None -> no_current_question question_truthy s = true.
Proof. unfold no_current_question. intros ->. reflexivity. Qed.

(** [answer] on a registered session whose handler part raises. *)
Lemma answer_raises w now request SESSIONS s e s' :
  SESSIONS !! session_id request = Some s ->
  answer_session w now request s = (inl e, s') ->
  answer w now request SESSIONS
  = (inl (reraise "Error processing answer: " e),
     <[session_id request := s']> SESSIONS).
Proof.
  intros Hs He. unfold app.answer. rewrite Hs, He. reflexivity.
Qed.

(** C5. Submitting an answer to a finished session, or to a session
    with no current question, fails with status 400 (the invalid
    session state error), and the history of the session is what it
    was. *)
Theorem answer_rejects_invalid_session_state w now request SESSIONS s :
  SESSIONS !! session_id request = Some s ->
  finished s = true \/ current_question s = None ->
  exists detail SESSIONS',
    answer w now request SESSIONS
    = (inl (HTTPException 400 detail), SESSIONS')
    /\ history <$> SESSIONS' !! session_id request = Some (history s).
Proof.
  intros Hs Hcase.
  destruct (finished s) eqn:Hfin.
  - eexists _, _. split.
    + exact (answer_raises w now request SESSIONS s _ _ Hs
               (answer_session_finished w now request s Hfin)).
    + rewrite lookup_insert_eq. reflexivity.
  - destruct Hcase as [?|Hq]; [discriminate|].
    eexists _, _. split.
    + exact (answer_raises w now request SESSIONS s _ _ Hs
               (answer_session_no_question w now request s Hfin
                  (no_current_question_None s Hq))).
    + rewrite lookup_insert_eq. reflexivity.
Qed.

Lemma init_default (t_created t_activity : datetime) :
  __init__ (Question := Question) MAX_QUESTIONS t_created t_activity
  = inr (default_session t_created t_activity).
Proof. reflexivity. Qed.

(** C9. Whatever [start] is called with, the session it registers under
    the new identifier has [max_questions] 15, the constructor's
    default, given that the question selector does not assign
    [max_questions]. *)
Theorem start_registers_default_max_questions :
  (forall w s, max_questions (next_question w s).2 = max_questions s) ->
  forall w (sid : string) (t_created t_activity : datetime) SESSIONS,
  exists s,
    (start w sid t_created t_activity SESSIONS).2 !! sid = Some s
    /\ max_questions s = 15.
Proof.
  intros Hnq w sid t_created t_activity SESSIONS.
  unfold app.start. rewrite init_default.
  pose proof (Hnq w (default_session t_created t_activity)) as Hmq.
  destruct (next_question w _) as [[e|[q|]] s1]; simpl in Hmq |- *;
    rewrite lookup_insert_eq; eauto.
Qed.

End HandlerFacts.


(** ** The handlers with the aggregator of the specification *)

Section AggregatorFacts.
Context {Question : Type}.
Variable version : cpython.
Variable question_truthy : Question -> bool.
Variable cfg : policy.
Variable World : Type.
Variable judge_reply : World -> option judge_scores.
Variable evaluated_at : World -> datetime.
Variable next_question : World -> Py (SessionState Question) (option Question).

Implicit Types (s : SessionState Question) (request : AnswerRequest)
  (SESSIONS : gmap string (SessionState Question)).

Local Abbreviation score_response :=
  (score_response_spec cfg World judge_reply evaluated_at).
Local Abbreviation answer :=
  (answer version question_truthy World next_question score_response).

(** The aggregator has changed nothing when it raises: it raises before
    its first assignment or not at all. *)
Lemma score_response_spec_atomic w (data : gmap string string) s e s' :
  score_response w data s = (inl e, s') -> s' = s.
Proof.
  unfold score_response_spec, record_evaluation. py_run.
  destruct (current_question s) as [q|], (finished s);
    try (intros [= _ <-]; reflexivity).
  destruct (judge_reply w) as [scores|]; py_run.
  - discriminate.
  - intros [= _ <-]. reflexivity.
Qed.

(** C3, as amended. When [answer] fails because the session is
    finished, because no question is pending, or because the evaluation
    fails, the registry holds the session with [last_activity] set to
    the time of the call and every other field as before the call; the
    other sessions are untouched. *)
Theorem answer_failure_keeps_all_but_last_activity
    w now request SESSIONS s :
  SESSIONS !! session_id request = Some s ->
  finished s = true
  \/ no_current_question question_truthy s = true
  \/ (exists e,
        (score_response w (response_data request)
           (set_last_activity now s)).1 = inl e) ->
  exists err s',
    answer w now request SESSIONS
    = (inl err, <[session_id request := s']> SESSIONS)
    /\ last_activity s' = now
    /\ history s' = history s
    /\ bloom_level s' = bloom_level s
    /\ difficulty s' = difficulty s
    /\ current_question s' = current_question s
    /\ question_number s' = question_number s
    /\ finished s' = finished s
    /\ max_questions s' = max_questions s
    /\ last_misconception s' = last_misconception s
    /\ created_at s' = created_at s.
Proof.
  intros Hs Hcase.
  assert (Hfail : exists e,
            answer_session version question_truthy World next_question
              score_response w now request s
            = (inl e, set_last_activity now s)).
  { destruct (finished s) eqn:Hfin.
    { eexists. apply answer_session_finished, Hfin. }
    destruct (no_current_question question_truthy s) eqn:Hq.
    { eexists. apply answer_session_no_question; assumption. }
    destruct Hcase as [?|[?|[e He]]]; try discriminate.
    destruct (score_response w (response_data request)
                (set_last_activity now s)) as [r s1] eqn:Hscore.
    simpl in He. subst r.
    pose proof (score_response_spec_atomic _ _ _ _ _ Hscore) as ->.
    exists e. eapply answer_session_evaluation_raises; eassumption. }
  destruct Hfail as [e He].
  exists (reraise "Error processing answer: " e), (set_last_activity now s).
  split.
  - exact (answer_raises version question_truthy World next_question
             score_response w now request SESSIONS s e _ Hs He).
  - repeat split.
Qed.

End AggregatorFacts.

(** *** On explicit registries *)

Lemma answer_rejects_completed_session :
  one_session completed !! session_id a_request = Some completed
  /\ exists detail SESSIONS',
       submit_to completed 500 = (inl (HTTPException 400 detail), SESSIONS')
       /\ history <$> SESSIONS' !! session_id a_request
          = Some (history completed).
Proof.
  split; [apply lookup_singleton_eq|].
  apply (answer_rejects_invalid_session_state from_3_12 always_truthy (option string)
           next_question_bank score_response_unavailable None 500 a_request
           (one_session completed) completed).
  - apply lookup_singleton_eq.
  - left. reflexivity.
Defined.

Lemma answer_failure_judge_unavailable :
  exists err s',
    submit_spec judge_down two_answers 500
    = (inl err, <[session_id a_request := s']> (one_session two_answers))
    /\ last_activity s' = 500
    /\ history s' = history two_answers
    /\ bloom_level s' = bloom_level two_answers
    /\ difficulty s' = difficulty two_answers
    /\ current_question s' = current_question two_answers
    /\ question_number s' = question_number two_answers
    /\ finished s' = finished two_answers
    /\ max_questions s' = max_questions two_answers
    /\ last_misconception s' = last_misconception two_answers
    /\ created_at s' = created_at two_answers.
Proof.
  apply (answer_failure_keeps_all_but_last_activity from_3_12 always_truthy
           a_policy (option judge_scores * datetime * option string)
           (fun w => w.1.1) (fun w => w.1.2)
           (fun w => next_question_bank w.2)
           judge_down 500 a_request (one_session two_answers) two_answers).
  - apply lookup_singleton_eq.
  - right. right. eexists. reflexivity.
Defined.

(** Counterexample to C3 as first stated: a failed submission would leave every field of
    the session, [last_activity] included, as it was. The submission to
    the completed session fails with status 400, and the session then
    reads 500 where it read 200. *)
Lemma answer_failure_changes_last_activity :
  (submit_to completed 500).1
  = inl (HTTPException 400 "Assessment already completed")
  /\ last_activity <$> one_session completed !! session_id a_request
     = Some 200
  /\ last_activity <$> (submit_to completed 500).2 !! session_id a_request
     = Some 500
  /\ (submit_to completed 500).2 !! session_id a_request
     <> one_session completed !! session_id a_request.
Proof.
  assert (Hrun : submit_to completed 500
                 = (inl (HTTPException 400 "Assessment already completed"),
                    <[session_id a_request := set_last_activity 500 completed]>
                      (one_session completed))).
  { unfold submit_to.
    exact (answer_raises from_3_12 always_truthy (option string) next_question_bank
             score_response_unavailable None 500 a_request
             (one_session completed) completed _ _
             (lookup_singleton_eq _ _)
             (answer_session_finished from_3_12 always_truthy (option string)
                next_question_bank score_response_unavailable None 500
                a_request completed eq_refl)). }
  rewrite Hrun. unfold one_session. simpl.
  rewrite lookup_insert_eq, lookup_singleton_eq. simpl.
  repeat split. intros [= H].
Qed.

Lemma start_registers_default_with_bank :
  exists s,
    (start (option string) next_question_bank (Some "What is a list?")
       (session_id a_request) 100 100 ∅).2 !! session_id a_request = Some s
    /\ max_questions s = 15.
Proof.
  apply (start_registers_default_max_questions (option string)
           next_question_bank).
  intros [q|] s; reflexivity.
Defined.

(** ** Further properties of [models/session.py] *)

Section SessionMore.
Context {Question : Type}.
Variable version : cpython.
Implicit Types (self s : SessionState Question) (e : evaluation).

Local Abbreviation summary := (session.summary version).

(** X1. [reset] brings any session back to the state the constructor
    gives for its [max_questions]: whatever the session held, resetting
    it and constructing a new one with the same [max_questions] and clock
    readings yield the same object. *)
Theorem reset_is_construction s (t_created t_activity : datetime) :
  MIN_QUESTIONS <= max_questions s <= MAX_QUESTIONS ->
  __init__ (max_questions s) t_created t_activity
  = inr (reset t_created t_activity s).2.
Proof.
  intros [Hlo Hhi]. unfold __init__.
  apply Z.leb_le in Hlo, Hhi. rewrite Hlo, Hhi. reflexivity.
Qed.

Lemma last_cons_default {A} (l : list A) :
  forall a d : A, List.last (a :: l) d = List.last l a.
Proof.
  induction l as [|x l IH]; intros a d; [reflexivity|].
  change (List.last (a :: x :: l) d) with (List.last (x :: l) d).
  rewrite (IH x d), (IH x a). reflexivity.
Qed.

Lemma record_all_step e (now : datetime) (es : list (evaluation * datetime)) s :
  record_all ((e, now) :: es) s
  = record_all es (set_last_activity now (set_history (history s ++ [e]) s)).
Proof. reflexivity. Qed.


(** X2. Recording evaluations one after the other never raises, appends
    them to the history in the order of the calls, leaves
    [last_activity] at the time of the last recording, and leaves
    [max_questions], the level, the difficulty, the question counter,
    the current question and the finished flag alone. *)
Theorem record_all_appends_in_order (es : list (evaluation * datetime)) s :
  (record_all es s).1 = inr tt
  /\ history (record_all es s).2 = (history s ++ es.*1)%list
  /\ last_activity (record_all es s).2 = List.last es.*2 (last_activity s)
  /\ max_questions (record_all es s).2 = max_questions s
  /\ bloom_level (record_all es s).2 = bloom_level s
  /\ difficulty (record_all es s).2 = difficulty s
  /\ question_number (record_all es s).2 = question_number s
  /\ current_question (record_all es s).2 = current_question s
  /\ finished (record_all es s).2 = finished s.
Proof.
  revert s. induction es as [|[e now] es IH]; intros s.
  - simpl. rewrite app_nil_r. repeat split.
  - rewrite record_all_step.
    destruct (IH (set_last_activity now (set_history (history s ++ [e]) s)))
      as (H1 & H2 & H3 & H4 & H5 & H6 & H7 & H8 & H9).
    rewrite H1, H2, H3, H4, H5, H6, H7, H8, H9.
    rewrite !fmap_cons. cbn [fst snd].
    simpl history. simpl last_activity. rewrite <- app_assoc.
    repeat split. symmetry. apply (last_cons_default es.*2 now).
Qed.


(** The float loop of [sum] under [key] over records that hold a float
    there or nothing: it stops with [KeyError] at the first record
    without the key, and returns a float when there is none. *)
Lemma float_loop_or_keyerror (key : string) (l : list evaluation) :
  forall f_result c : float,
    forallb (float_or_absent key) l = true ->
    if existsb (lacks key) l
    then sum_items version (SumFloat f_result c) key l = inl (KeyError key)
    else exists x, sum_items version (SumFloat f_result c) key l
                   = inr (PyFloat x).
Proof.
  induction l as [|i l IH]; intros f_result c Hnum.
  - simpl. eauto.
  - simpl in Hnum. apply andb_prop in Hnum as [Hi Hl].
    unfold float_or_absent in Hi. cbn [sum_items existsb].
    unfold lacks at 1, subscript.
    destruct (i !! key) as [[| |x|]|]; try discriminate; [|reflexivity].
    rewrite bind_inr. cbn [sum_step orb].
    destruct (float_step version f_result c x) as [f_result' c'].
    rewrite bind_inr. apply IH, Hl.
Qed.

(** One aggregate of [summary] on such records. *)
Lemma aggregate_or_keyerror (key : string) (l : list evaluation) :
  (1 <= length l)%nat ->
  Z.of_nat (length l) <= LONG_MAX ->
  forallb (float_or_absent key) l = true ->
  if existsb (lacks key) l
  then (s ← py_sum version key l; py_truediv s (len l)) = inl (KeyError key)
  else exists m, (s ← py_sum version key l; py_truediv s (len l))
                 = inr (PyFloat m).
Proof.
  intros Hlen Hmax Hnum.
  destruct l as [|i l]; [simpl in Hlen; lia|].
  pose proof Hnum as Hnum'.
  simpl in Hnum. apply andb_prop in Hnum as [Hi Hl].
  unfold float_or_absent in Hi. unfold py_sum. cbn [sum_items existsb].
  unfold lacks at 1, subscript.
  destruct (i !! key) as [[| |x|]|]; try discriminate; [|reflexivity].
  rewrite bind_inr. cbn [sum_step py_add orb].
  rewrite (int_to_float_in_range 0) by (unfold LONG_MAX; simpl; lia).
  rewrite bind_inr. cbn [fmap Result_fmap leave_long_loop]. rewrite bind_inr.
  pose proof (float_loop_or_keyerror key l (Z_to_float 0 + x)%float 0%float Hl)
    as Hloop.
  destruct (existsb (lacks key) l).
  - rewrite Hloop. reflexivity.
  - destruct Hloop as [total ->]. rewrite bind_inr.
    unfold len, py_truediv.
    rewrite int_to_float_in_range by lia. rewrite bind_inr.
    destruct (Z.eqb_spec (Z.of_nat (length (i :: l))) 0) as [Hz|_];
      [simpl in Hz; lia|].
    eexists. reflexivity.
Qed.

(** X4. When the three score keys hold floats wherever they are
    present, [summary] raises [KeyError] for the first key, in the order
    accuracy, explanation_score, final_score, that some record of the
    history lacks, and returns when no record lacks any; either way the
    session is left as it was. The history is a Python list, whose
    length fits in a C long. *)
Theorem summary_raises_first_missing_key s :
  Z.of_nat (length (history s)) <= LONG_MAX ->
  forallb (fun key => forallb (float_or_absent key) (history s)) score_keys
  = true ->
  match first_missing (history s) with
  | Some key => summary s = (inl (KeyError key), s)
  | None => exists r, summary s = (inr r, s)
  end.
Proof.
  unfold score_keys, first_missing. simpl.
  intros Hmax Hnum.
  apply andb_prop in Hnum as [Ha Hnum].
  apply andb_prop in Hnum as [He Hnum].
  apply andb_prop in Hnum as [Hf _].
  unfold session.summary. py_run.
  destruct (history s) as [|e0 h] eqn:Hh; [simpl; eauto|].
  assert (Hlen : (1 <= length (e0 :: h))%nat) by (simpl; lia).
  pose proof (aggregate_or_keyerror "accuracy" _ Hlen Hmax Ha) as Hacc.
  pose proof (aggregate_or_keyerror "explanation_score" _ Hlen Hmax He)
    as Hexp.
  pose proof (aggregate_or_keyerror "final_score" _ Hlen Hmax Hf) as Hfin.
  py_run.
  destruct (existsb (lacks "accuracy") (e0 :: h)).
  { rewrite Hacc. reflexivity. }
  destruct Hacc as [acc ->]. py_run.
  destruct (existsb (lacks "explanation_score") (e0 :: h)).
  { rewrite Hexp. reflexivity. }
  destruct Hexp as [exp ->]. py_run.
  destruct (existsb (lacks "final_score") (e0 :: h)).
  { rewrite Hfin. reflexivity. }
  destruct Hfin as [final ->]. py_run. eauto.
Qed.

End SessionMore.

(** ** Further properties of the handlers of [app.py] *)

Lemma reraise_is_http (prefix : string) (e : exn) :
  exists code detail, reraise prefix e = HTTPException code detail.
Proof. destruct e; simpl; eauto. Qed.

Section HandlerMore.
Context {Question : Type}.
Variable version : cpython.
Variable question_truthy : Question -> bool.
Variable World : Type.
Variable next_question : World -> Py (SessionState Question) (option Question).
Variable score_response :
  World -> gmap string string -> Py (SessionState Question) evaluation.

Implicit Types (s : SessionState Question) (request : AnswerRequest)
  (SESSIONS : gmap string (SessionState Question)).

Local Abbreviation answer_session :=
  (answer_session version question_truthy World next_question score_response).
Local Abbreviation answer :=
  (answer version question_truthy World next_question score_response).
Local Abbreviation start := (start World next_question).
Local Abbreviation summary := (session.summary version).

(** [end_session] on a registered and on an unregistered identifier. *)
Lemma end_session_registered (sid : string) SESSIONS s :
  SESSIONS !! sid = Some s ->
  end_session sid SESSIONS
  = (inr (<["message" := "Session ended"]> ∅), delete sid SESSIONS).
Proof.
  intros Hs. unfold end_session, del. rewrite Hs. py_run. rewrite Hs.
  reflexivity.
Qed.

Lemma end_session_unregistered (sid : string) SESSIONS :
  SESSIONS !! sid = None ->
  end_session sid SESSIONS
  = (inl (HTTPException 404 "Session not found"), SESSIONS).
Proof. intros Hs. unfold end_session. rewrite Hs. reflexivity. Qed.

Lemma end_session_removes (sid : string) SESSIONS :
  (end_session sid SESSIONS).2 !! sid = None.
Proof.
  destruct (SESSIONS !! sid) as [s|] eqn:Hs.
  - rewrite (end_session_registered sid SESSIONS s Hs). simpl.
    apply lookup_delete_eq.
  - rewrite (end_session_unregistered sid SESSIONS Hs). exact Hs.
Qed.

Lemma answer_unregistered w now request SESSIONS :
  SESSIONS !! session_id request = None ->
  answer w now request SESSIONS
  = (inl (HTTPException 404
            "Session not found. Please start a new assessment."),
     SESSIONS).
Proof. intros Hs. unfold app.answer. rewrite Hs. reflexivity. Qed.

Lemma status_unregistered (sid : string) SESSIONS :
  SESSIONS !! sid = None ->
  get_session_status sid SESSIONS
  = (inl (HTTPException 404 "Session not found"), SESSIONS).
Proof. intros Hs. unfold get_session_status. rewrite Hs. reflexivity. Qed.

(** The registry after [start], in each of its outcomes. *)
Lemma start_registry w (sid : string) (t_created t_activity : datetime)
    SESSIONS :
  (start w sid t_created t_activity SESSIONS).2
  = <[sid := (next_question w (default_session t_created t_activity)).2]>
      SESSIONS.
Proof.
  unfold app.start. rewrite init_default.
  destruct (next_question w _) as [[e|[q|]] s1]; simpl;
    apply insert_insert_eq.
Qed.

(** X6. Whatever goes wrong inside [start], [answer],
    [get_session_status] or [end_session], the caller sees an
    [HTTPException]: no other exception leaves a handler. *)
Theorem handlers_raise_only_http
    w now request (sid : string) (t_created t_activity : datetime)
    SESSIONS (e : exn) :
  (answer w now request SESSIONS).1 = inl e
  \/ (start w sid t_created t_activity SESSIONS).1 = inl e
  \/ (get_session_status sid SESSIONS).1 = inl e
  \/ (end_session sid SESSIONS).1 = inl e ->
  exists code detail, e = HTTPException code detail.
Proof.
  intros [H|[H|[H|H]]].
  - unfold app.answer in H.
    destruct (SESSIONS !! session_id request) as [s|]; simpl in H.
    + destruct (answer_session w now request s) as [[e'|[ev sm|ev q]] s1];
        simpl in H; try discriminate.
      injection H as <-. apply reraise_is_http.
    + injection H as <-. eauto.
  - unfold app.start in H.
    destruct (__init__ MAX_QUESTIONS t_created t_activity) as [e'|s0];
      simpl in H.
    + injection H as <-. apply reraise_is_http.
    + destruct (next_question w s0) as [[e'|[q|]] s1]; simpl in H;
        try discriminate; injection H as <-;
        [apply reraise_is_http | eauto].
  - unfold get_session_status in H.
    destruct (SESSIONS !! sid); simpl in H; [discriminate|].
    injection H as <-. eauto.
  - destruct (SESSIONS !! sid) as [s|] eqn:Hs.
    + rewrite (end_session_registered sid SESSIONS s Hs) in H. discriminate.
    + rewrite (end_session_unregistered sid SESSIONS Hs) in H.
      injection H as <-. eauto.
Qed.

(** X7. The handlers act on one session: whatever [answer], [start] and
    [end_session] do and however they end, every session registered
    under another identifier is left as it was. *)
Theorem handlers_leave_other_sessions
    w now request (sid other : string) (t_created t_activity : datetime)
    SESSIONS :
  other <> session_id request ->
  other <> sid ->
  (answer w now request SESSIONS).2 !! other = SESSIONS !! other
  /\ (start w sid t_created t_activity SESSIONS).2 !! other
     = SESSIONS !! other
  /\ (end_session sid SESSIONS).2 !! other = SESSIONS !! other.
Proof.
  intros Hreq Hsid. split; [|split].
  - unfold app.answer.
    destruct (SESSIONS !! session_id request) as [s|]; [|reflexivity].
    destruct (answer_session w now request s) as [[e'|[ev sm|ev q]] s1];
      simpl; rewrite ?lookup_insert_ne, ?lookup_delete_ne by congruence;
      reflexivity.
  - rewrite start_registry. apply lookup_insert_ne. congruence.
  - destruct (SESSIONS !! sid) as [s|] eqn:Hs.
    + rewrite (end_session_registered sid SESSIONS s Hs). simpl.
      apply lookup_delete_ne. congruence.
    + rewrite (end_session_unregistered sid SESSIONS Hs). reflexivity.
Qed.

(** X8. An identifier that is not registered gets status 404 from
    [answer], [get_session_status] and [end_session] alike, and the
    registry is left as it was. *)
Theorem unregistered_session_is_404 w now request SESSIONS :
  SESSIONS !! session_id request = None ->
  answer w now request SESSIONS
  = (inl (HTTPException 404
            "Session not found. Please start a new assessment."),
     SESSIONS)
  /\ get_session_status (session_id request) SESSIONS
     = (inl (HTTPException 404 "Session not found"), SESSIONS)
  /\ end_session (session_id request) SESSIONS
     = (inl (HTTPException 404 "Session not found"), SESSIONS).
Proof.
  intros Hs. split; [|split].
  - apply answer_unregistered, Hs.
  - apply status_unregistered, Hs.
  - apply end_session_unregistered, Hs.
Qed.

(** X9. Once [end_session] has been called for an identifier, whether or
    not it was registered, that identifier is gone: [answer],
    [get_session_status] and a second [end_session] all give 404. *)
Theorem ended_session_is_gone w now request SESSIONS :
  let SESSIONS' := (end_session (session_id request) SESSIONS).2 in
  (answer w now request SESSIONS').1
  = inl (HTTPException 404
           "Session not found. Please start a new assessment.")
  /\ (get_session_status (session_id request) SESSIONS').1
     = inl (HTTPException 404 "Session not found")
  /\ end_session (session_id request) SESSIONS'
     = (inl (HTTPException 404 "Session not found"), SESSIONS').
Proof.
  intros SESSIONS'.
  pose proof (end_session_removes (session_id request) SESSIONS) as Hgone.
  fold SESSIONS' in Hgone. split; [|split].
  - rewrite (answer_unregistered w now request SESSIONS' Hgone). reflexivity.
  - rewrite (status_unregistered _ SESSIONS' Hgone). reflexivity.
  - apply end_session_unregistered, Hgone.
Qed.

(** X10. [start] followed by [end_session] of the new identifier is a
    round trip on the registry: when the identifier was not in use, the
    registry is back to what it was, and [end_session] succeeds even if
    [start] itself failed, since [start] registers the session before it
    asks for the first question. *)
Theorem start_then_end_session
    w (sid : string) (t_created t_activity : datetime) SESSIONS :
  SESSIONS !! sid = None ->
  end_session sid (start w sid t_created t_activity SESSIONS).2
  = (inr (<["message" := "Session ended"]> ∅), SESSIONS).
Proof.
  intros Hfresh. rewrite start_registry.
  erewrite end_session_registered by apply lookup_insert_eq.
  rewrite delete_insert_eq. rewrite delete_id by exact Hfresh.
  reflexivity.
Qed.

(** X11. [health_check] reports as active sessions the number of
    registered sessions and does not touch them: a [start] with an
    unused identifier raises the count by one, whether [start] succeeds
    or fails, and an [end_session] of a registered identifier lowers it
    by one. *)
Theorem health_counts_sessions
    (models_list : Result unit) w (sid : string)
    (t_created t_activity : datetime) SESSIONS :
  (exists h,
     health_check models_list SESSIONS = (inr h, SESSIONS)
     /\ active_sessions h = Z.of_nat (size SESSIONS))
  /\ (SESSIONS !! sid = None ->
      exists h',
        (health_check models_list
           (start w sid t_created t_activity SESSIONS).2).1 = inr h'
        /\ active_sessions h' = Z.of_nat (size SESSIONS) + 1)
  /\ (is_Some (SESSIONS !! sid) ->
      exists h',
        (health_check models_list (end_session sid SESSIONS).2).1 = inr h'
        /\ active_sessions h' = Z.of_nat (size SESSIONS) - 1).
Proof.
  split; [|split].
  - unfold health_check. destruct models_list; eexists; split; reflexivity.
  - intros Hfresh. rewrite start_registry. unfold health_check.
    destruct models_list; simpl; eexists;
      (split; [reflexivity|]); simpl;
      rewrite map_size_insert_None by exact Hfresh; lia.
  - intros [s Hs].
    rewrite (end_session_registered sid SESSIONS s Hs).
    assert (Hsize : size SESSIONS = S (size (delete sid SESSIONS))).
    { rewrite <- (insert_delete_id SESSIONS sid s Hs) at 1.
      apply map_size_insert_None, lookup_delete_eq. }
    unfold health_check.
    destruct models_list; simpl; eexists;
      (split; [reflexivity|]); simpl; lia.
Qed.

(** The log line of [answer] formats the final score of the evaluation,
    or 0 when there is none: it raises when the key holds something that
    is not a number, and returns when it holds a float or nothing. *)
Lemma format_final_score_not_a_number (ev : evaluation) :
  number_or_absent "final_score" ev = false ->
  exists msg,
    format_2f (default (PyInt 0) (ev !! "final_score")) = inl (ValueError msg)
    \/ format_2f (default (PyInt 0) (ev !! "final_score"))
       = inl (TypeError msg).
Proof.
  unfold number_or_absent.
  destruct (ev !! "final_score") as [[| | |]|]; try discriminate; intros _;
    eexists; [right | left]; reflexivity.
Qed.

Lemma format_final_score_float (ev : evaluation) :
  float_or_absent "final_score" ev = true ->
  format_2f (default (PyInt 0) (ev !! "final_score")) = inr tt.
Proof.
  unfold float_or_absent.
  destruct (ev !! "final_score") as [[| | |]|]; try discriminate; intros _;
    reflexivity.
Qed.

(** What a successful [summary] returns as responses. *)
Lemma summary_inr_responses s (r : Summary) s' :
  summary s = (inr r, s') -> responses r = history s /\ s' = s.
Proof.
  unfold summary. py_run.
  destruct (history s) as [|e h] eqn:Hh.
  - intros [= <- <-]. split; reflexivity.
  - py_run.
    destruct (_ ≫= _) as [?|acc]; py_run; [discriminate|].
    destruct (_ ≫= _) as [?|exp]; py_run; [discriminate|].
    destruct (_ ≫= _) as [?|final]; py_run; [discriminate|].
    intros [= <- <-]. split; reflexivity.
Qed.

(** The handler part of [answer] once the two checks are passed and the
    evaluation has returned. *)
Lemma answer_session_scored w now request s (ev : evaluation) s1 :
  finished s = false ->
  no_current_question question_truthy s = false ->
  score_response w (response_data request) (set_last_activity now s)
  = (inr ev, s1) ->
  answer_session w now request s
  = match format_2f (default (PyInt 0) (ev !! "final_score")) with
    | inl e => (inl e, s1)
    | inr _ =>
        if finished s1 then
          match summary s1 with
          | (inl e, s2) => (inl e, s2)
          | (inr summ, s2) => (inr (Finished ev summ), s2)
          end
        else
          match next_question w s1 with
          | (inl e, s2) => (inl e, s2)
          | (inr q, s2) => (inr (NextQuestion ev q), s2)
          end
    end.
Proof.
  intros Hfin Hq Hscore. unfold app.answer_session. py_run. simpl.
  rewrite Hfin.
  change (no_current_question question_truthy (set_last_activity now s))
    with (no_current_question question_truthy s).
  rewrite Hq. py_run. rewrite Hscore. py_run.
  destruct (format_2f _); py_run; [reflexivity|].
  destruct (finished s1); py_run; reflexivity.
Qed.

(** Every way [answer_session] can return. *)
Lemma answer_session_returns w now request s (resp : AnswerResponse) s2 :
  answer_session w now request s = (inr resp, s2) ->
  finished s = false
  /\ no_current_question question_truthy s = false
  /\ exists (ev : evaluation) s1,
       score_response w (response_data request) (set_last_activity now s)
       = (inr ev, s1)
       /\ ((finished s1 = true
            /\ exists summ, summary s1 = (inr summ, s2)
                            /\ resp = Finished ev summ)
           \/ (finished s1 = false
               /\ exists q, next_question w s1 = (inr q, s2)
                            /\ resp = NextQuestion ev q)).
Proof.
  intros H.
  destruct (finished s) eqn:Hfin.
  { rewrite answer_session_finished in H by exact Hfin. discriminate. }
  destruct (no_current_question question_truthy s) eqn:Hq.
  { rewrite answer_session_no_question in H by assumption. discriminate. }
  destruct (score_response w (response_data request) (set_last_activity now s))
    as [[e|ev] s1] eqn:Hscore.
  { rewrite (answer_session_evaluation_raises _ _ _ _ _ w now request s e s1)
      in H by assumption. discriminate. }
  rewrite (answer_session_scored w now request s ev s1) in H by assumption.
  do 2 (split; [reflexivity|]). exists ev, s1. split; [reflexivity|].
  destruct (format_2f _) as [?|[]]; [discriminate|].
  destruct (finished s1).
  - left. split; [reflexivity|].
    destruct (summary s1) as [[e|summ] s2']; [discriminate|].
    injection H as <- <-. eauto.
  - right. split; [reflexivity|].
    destruct (next_question w s1) as [[e|q] s2']; [discriminate|].
    injection H as <- <-. eauto.
Qed.

(** X12. When [answer] reports the assessment finished, the session was
    registered and open, the evaluation returned and left it finished,
    the summary in the response is the summary of that session, with its
    whole history as responses, and the session has been removed from
    the registry. *)
Theorem answer_finished_response
    w now request SESSIONS (ev : evaluation) (summ : Summary) SESSIONS' :
  answer w now request SESSIONS = (inr (Finished ev summ), SESSIONS') ->
  exists s s1,
    SESSIONS !! session_id request = Some s
    /\ finished s = false
    /\ score_response w (response_data request) (set_last_activity now s)
       = (inr ev, s1)
    /\ finished s1 = true
    /\ (summary s1).1 = inr summ
    /\ responses summ = history s1
    /\ SESSIONS' = delete (session_id request) SESSIONS
    /\ SESSIONS' !! session_id request = None.
Proof.
  unfold app.answer.
  destruct (SESSIONS !! session_id request) as [s|] eqn:Hs; [|discriminate].
  destruct (answer_session w now request s) as [[e|resp] s2] eqn:Hrun;
    [discriminate|].
  apply answer_session_returns in Hrun
    as (Hfin & _ & ev' & s1 & Hscore & Hcase).
  destruct Hcase as [(Hfin1 & summ' & Hsum & ->)|(Hfin1 & q & _ & ->)];
    [|discriminate].
  intros [= <- <- <-].
  destruct (summary_inr_responses s1 summ' s2 Hsum) as [Hresp _].
  exists s, s1. rewrite Hsum.
  repeat split; try assumption; try reflexivity.
  apply lookup_delete_eq.
Qed.

(** X13. When [answer] reports the assessment not finished, the session
    was registered and open, the evaluation returned and left it
    unfinished, the next question is what the selector returned for that
    session, possibly none, and the registry holds the session as the
    selector left it. *)
Theorem answer_next_question_response
    w now request SESSIONS (ev : evaluation) (q : option Question)
    SESSIONS' :
  answer w now request SESSIONS = (inr (NextQuestion ev q), SESSIONS') ->
  exists s s1 s2,
    SESSIONS !! session_id request = Some s
    /\ finished s = false
    /\ score_response w (response_data request) (set_last_activity now s)
       = (inr ev, s1)
    /\ finished s1 = false
    /\ next_question w s1 = (inr q, s2)
    /\ SESSIONS' = <[session_id request := s2]> SESSIONS.
Proof.
  unfold app.answer.
  destruct (SESSIONS !! session_id request) as [s|] eqn:Hs; [|discriminate].
  destruct (answer_session w now request s) as [[e|resp] s2] eqn:Hrun;
    [discriminate|].
  apply answer_session_returns in Hrun
    as (Hfin & _ & ev' & s1 & Hscore & Hcase).
  destruct Hcase as [(Hfin1 & summ' & Hsum & ->)|(Hfin1 & q' & Hnext & ->)];
    [discriminate|].
  intros [= <- <- <-].
  exists s, s1, s2. repeat split; assumption.
Qed.

(** X14. The last answer of an assessment: when the evaluation returns
    an evaluation whose final score is a float or absent and leaves the
    session finished with a history of records that carry the three
    scores as floats, [answer] returns the finished response, whose
    summary holds the whole history and the means of its scores as
    binary64 arithmetic computes them, and removes the session from the
    registry. *)
Theorem answer_last_question
    w now request SESSIONS s (ev : evaluation) s1
    (accs exps fins : list float) :
  SESSIONS !! session_id request = Some s ->
  finished s = false ->
  no_current_question question_truthy s = false ->
  score_response w (response_data request) (set_last_activity now s)
  = (inr ev, s1) ->
  float_or_absent "final_score" ev = true ->
  finished s1 = true ->
  (1 <= length (history s1))%nat ->
  Z.of_nat (length (history s1)) <= LONG_MAX ->
  mapM (recorded_float "accuracy") (history s1) = Some accs ->
  mapM (recorded_float "explanation_score") (history s1) = Some exps ->
  mapM (recorded_float "final_score") (history s1) = Some fins ->
  exists summ : Summary,
    answer w now request SESSIONS
    = (inr (Finished ev summ), delete (session_id request) SESSIONS)
    /\ responses summ = history s1
    /\ final_score summ = PyFloat (float_mean version fins)
    /\ average_accuracy summ = PyFloat (float_mean version accs)
    /\ average_explanation summ = PyFloat (float_mean version exps).
Proof.
  intros Hs Hfin Hq Hscore Hlog Hfin1 Hlen Hmax Ha He Hf.
  pose proof (summary_recorded version s1 accs exps fins Hlen Hmax Ha He Hf)
    as Hsum.
  eexists. split.
  - unfold app.answer. rewrite Hs.
    rewrite (answer_session_scored w now request s ev s1) by assumption.
    rewrite (format_final_score_float ev Hlog), Hfin1, Hsum. reflexivity.
  - simpl. repeat split.
Qed.

(** X15. When the evaluation returns a final score that is not a number,
    the log line of [answer] raises after the session has been scored:
    the caller gets status 500 and the registry holds the session as the
    evaluation left it, not as it was before the call. *)
Theorem answer_unformattable_final_score
    w now request SESSIONS s (ev : evaluation) s1 :
  SESSIONS !! session_id request = Some s ->
  finished s = false ->
  no_current_question question_truthy s = false ->
  score_response w (response_data request) (set_last_activity now s)
  = (inr ev, s1) ->
  number_or_absent "final_score" ev = false ->
  exists detail,
    answer w now request SESSIONS
    = (inl (HTTPException 500 detail), <[session_id request := s1]> SESSIONS).
Proof.
  intros Hs Hfin Hq Hscore Hlog.
  unfold app.answer. rewrite Hs.
  rewrite (answer_session_scored w now request s ev s1) by assumption.
  destruct (format_final_score_not_a_number ev Hlog) as [msg [-> | ->]];
    simpl; eauto.
Qed.

(** X16. A submission that [answer] rejects with status 400 does not
    show in [get_session_status]: the status of the session reads the
    same after the call as before it. *)
Theorem rejected_answer_keeps_status w now request SESSIONS s :
  SESSIONS !! session_id request = Some s ->
  finished s = true \/ no_current_question question_truthy s = true ->
  (get_session_status (session_id request)
     (answer w now request SESSIONS).2).1
  = (get_session_status (session_id request) SESSIONS).1.
Proof.
  intros Hs Hcase.
  assert (Hrun : exists e,
            answer_session w now request s = (inl e, set_last_activity now s)).
  { destruct (finished s) eqn:Hfin.
    - eexists. apply answer_session_finished, Hfin.
    - destruct Hcase as [?|Hq]; [discriminate|].
      eexists. apply answer_session_no_question; assumption. }
  destruct Hrun as [e He].
  rewrite (answer_raises _ _ _ _ _ w now request SESSIONS s e _ Hs He).
  unfold get_session_status. simpl. rewrite lookup_insert_eq, Hs.
  reflexivity.
Qed.

(** X17. When [start] returns, its response carries the identifier it
    was given and the question the selector returned for a session just
    constructed with the default [max_questions], and the registry holds
    that session as the selector left it. *)
Theorem start_response
    w (sid : string) (t_created t_activity : datetime) SESSIONS
    (resp : StartResponse) SESSIONS' :
  start w sid t_created t_activity SESSIONS = (inr resp, SESSIONS') ->
  start_session_id resp = sid
  /\ exists s1,
       next_question w (default_session t_created t_activity)
       = (inr (Some (start_question resp)), s1)
       /\ SESSIONS' = <[sid := s1]> SESSIONS.
Proof.
  unfold app.start. rewrite init_default.
  destruct (next_question w _) as [[e|[q|]] s1]; simpl; try discriminate.
  intros [= <- <-]. simpl. split; [reflexivity|].
  exists s1. split; [reflexivity | apply insert_insert_eq].
Qed.

(** The list of expired sessions holds the identifiers of the sessions
    last active more than an hour before [current_time], each once. *)
Lemma expired_sessions_elem (current_time : datetime) SESSIONS (sid : string) :
  sid ∈ expired_sessions current_time SESSIONS
  <-> exists s, SESSIONS !! sid = Some s
                /\ timedelta 1 < current_time - last_activity s.
Proof.
  unfold expired_sessions. rewrite list_elem_of_fmap. split.
  - intros ([k s] & -> & Hin). apply list_elem_of_filter in Hin as [Hexp Hin].
    apply elem_of_map_to_list in Hin. exists s. split; assumption.
  - intros (s & Hs & Hexp). exists (sid, s). split; [reflexivity|].
    apply list_elem_of_filter. split; [exact Hexp|].
    apply elem_of_map_to_list, Hs.
Qed.

Lemma expired_sessions_NoDup (current_time : datetime) SESSIONS :
  NoDup (expired_sessions current_time SESSIONS).
Proof.
  unfold expired_sessions.
  eapply sublist_NoDup; [apply (NoDup_fst_map_to_list SESSIONS)|].
  apply fmap_sublist, sublist_filter.
Qed.

(** Deleting identifiers that are registered and pairwise distinct never
    raises and removes exactly them. *)
Lemma del_each_run (l : list string) :
  forall SESSIONS,
    NoDup l ->
    (forall sid, sid ∈ l -> is_Some (SESSIONS !! sid)) ->
    exists SESSIONS',
      del_each l SESSIONS = (inr tt, SESSIONS')
      /\ forall sid,
           SESSIONS' !! sid
           = if decide (sid ∈ l) then None else SESSIONS !! sid.
Proof.
  induction l as [|k l IH]; intros SESSIONS Hnodup Hreg.
  - exists SESSIONS. split; [reflexivity|]. intros sid.
    destruct (decide (sid ∈ [])) as [Hin|]; [|reflexivity].
    apply elem_of_nil in Hin. contradiction.
  - apply NoDup_cons in Hnodup as [Hk Hnodup].
    destruct (Hreg k) as [s Hs]; [left|].
    destruct (IH (delete k SESSIONS) Hnodup) as (SESSIONS' & Hrun & Hlook).
    { intros sid Hin. rewrite lookup_delete_ne by (intros ->; contradiction).
      apply Hreg. right. exact Hin. }
    exists SESSIONS'. split.
    + simpl. py_run. unfold del at 1. rewrite Hs. exact Hrun.
    + intros sid. rewrite Hlook.
      destruct (decide (sid ∈ l)) as [Hin|Hnin].
      * rewrite decide_True by (right; exact Hin). reflexivity.
      * destruct (decide (sid = k)) as [->|Hne].
        -- rewrite decide_True by left. apply lookup_delete_eq.
        -- rewrite decide_False
             by (intros [?|?]%elem_of_cons; contradiction).
           apply lookup_delete_ne. congruence.
Qed.

(** One round of the cleanup: the [try] block returns, and a session is
    left exactly when it was there and was active within the hour. *)
Lemma cleanup_try_run (current_time : datetime) SESSIONS :
  exists SESSIONS',
    cleanup_try current_time SESSIONS = (inr tt, SESSIONS')
    /\ forall sid s,
         SESSIONS' !! sid = Some s
         <-> SESSIONS !! sid = Some s
             /\ current_time - last_activity s <= timedelta 1.
Proof.
  unfold cleanup_try.
  destruct (del_each_run (expired_sessions current_time SESSIONS) SESSIONS)
    as (SESSIONS' & Hrun & Hlook).
  { apply expired_sessions_NoDup. }
  { intros sid (s & Hs & _)%expired_sessions_elem. rewrite Hs. eauto. }
  exists SESSIONS'. split; [exact Hrun|].
  intros sid s. rewrite Hlook.
  destruct (decide (sid ∈ expired_sessions current_time SESSIONS))
    as [Hin|Hnin].
  - apply expired_sessions_elem in Hin as (s' & Hs' & Hexp).
    split; [discriminate|]. intros [Hs Hle].
    rewrite Hs in Hs'. injection Hs' as <-. lia.
  - split.
    + intros Hs. split; [exact Hs|].
      destruct (Z_le_gt_dec (current_time - last_activity s) (timedelta 1))
        as [Hle|Hgt]; [exact Hle|].
      exfalso. apply Hnin, expired_sessions_elem. exists s.
      split; [exact Hs | lia].
    + intros [Hs _]. exact Hs.
Qed.

Lemma cleanup_round_lookup (current_time : datetime) SESSIONS (sid : string) s :
  (cleanup_round current_time SESSIONS).2 !! sid = Some s
  <-> SESSIONS !! sid = Some s
      /\ current_time - last_activity s <= timedelta 1.
Proof.
  unfold cleanup_round.
  destruct (cleanup_try_run current_time SESSIONS) as (SESSIONS' & -> & Hlook).
  apply Hlook.
Qed.

(** X18. A round of the session cleanup that runs on its own, no
    handler changing the registry while it runs, returns from its [try]
    block without an exception, removes exactly the sessions whose last
    activity lies more than one hour before the time of the round, and
    leaves the others as they are: a session last active exactly one
    hour ago stays. *)
Theorem cleanup_removes_exactly_the_expired (current_time : datetime) SESSIONS :
  (cleanup_try current_time SESSIONS).1 = inr tt
  /\ (cleanup_round current_time SESSIONS).2
     = (cleanup_try current_time SESSIONS).2
  /\ forall sid s,
       (cleanup_round current_time SESSIONS).2 !! sid = Some s
       <-> SESSIONS !! sid = Some s
           /\ current_time - last_activity s <= timedelta 1.
Proof.
  split; [|split].
  - destruct (cleanup_try_run current_time SESSIONS) as (SESSIONS' & -> & _).
    reflexivity.
  - unfold cleanup_round.
    destruct (cleanup_try current_time SESSIONS) as [[e|[]] SESSIONS'];
      reflexivity.
  - intros sid s. apply cleanup_round_lookup.
Qed.

(** X19. Rounds of the cleanup compose: a round at a later time removes
    whatever an earlier round would have removed, so running both leaves
    the same registry as running the later one alone. *)
Theorem cleanup_rounds_compose (t1 t2 : datetime) SESSIONS :
  t1 <= t2 ->
  (cleanup_round t2 (cleanup_round t1 SESSIONS).2).2
  = (cleanup_round t2 SESSIONS).2.
Proof.
  intros Hle. apply map_eq. intros sid. apply option_eq. intros s.
  rewrite !cleanup_round_lookup. split.
  - intros [[Hs _] H2]. split; assumption.
  - intros [Hs H2]. repeat split; try assumption. lia.
Qed.

(** X20. A rejected submission keeps the session alive: after [answer]
    has refused a submission, because the session is finished or has no
    question pending, a cleanup round up to one hour after the call
    leaves the session registered, however long it had been idle before
    the call. *)
Theorem rejected_answer_postpones_cleanup
    w now request (current_time : datetime) SESSIONS s :
  SESSIONS !! session_id request = Some s ->
  finished s = true \/ no_current_question question_truthy s = true ->
  current_time - now <= timedelta 1 ->
  (cleanup_round current_time (answer w now request SESSIONS).2).2
    !! session_id request
  = Some (set_last_activity now s).
Proof.
  intros Hs Hcase Hle.
  assert (Hrun : exists e,
            answer_session w now request s = (inl e, set_last_activity now s)).
  { destruct (finished s) eqn:Hfin.
    - eexists. apply answer_session_finished, Hfin.
    - destruct Hcase as [?|Hq]; [discriminate|].
      eexists. apply answer_session_no_question; assumption. }
  destruct Hrun as [e He].
  rewrite (answer_raises _ _ _ _ _ w now request SESSIONS s e _ Hs He).
  apply cleanup_round_lookup. simpl. split; [apply lookup_insert_eq|exact Hle].
Qed.

End HandlerMore.

(** X21. [startup_event] returns exactly when the API key is set to a
    non-empty string and the check of the client succeeds; an unset key,
    an empty key and a failing client each raise, and whatever the
    client raised, the start-up raises a [RuntimeError]. *)
Theorem startup_event_outcomes
    (OPENAI_API_KEY : option string) (models_list : Result unit) :
  (startup_event OPENAI_API_KEY models_list = inr tt
   <-> (exists key, OPENAI_API_KEY = Some key /\ key <> "")
       /\ models_list = inr tt)
  /\ (forall e,
        startup_event OPENAI_API_KEY models_list = inl e ->
        exists msg, e = RuntimeError msg).
Proof.
  unfold startup_event. split.
  - destruct OPENAI_API_KEY as [[|c key]|].
    + split; [discriminate|].
      intros [(k & [= <-] & Hne) _]. contradiction.
    + destruct models_list as [e|[]]; split.
      * discriminate.
      * intros [_ H]. discriminate.
      * intros _. split; [|reflexivity].
        eexists. split; [reflexivity | discriminate].
      * intros _. reflexivity.
    + split; [discriminate|].
      intros [(k & H & _) _]. discriminate.
  - intros e. destruct OPENAI_API_KEY as [[|c key]|].
    + intros [= <-]. eauto.
    + destruct models_list as [e'|[]]; [|discriminate].
      intros [= <-]. eauto.
    + intros [= <-]. eauto.
Qed.

(** *** Further runs on explicit sessions and registries *)

Lemma reset_is_construction_completed :
  MIN_QUESTIONS <= max_questions completed <= MAX_QUESTIONS
  /\ __init__ (max_questions completed) 300 301
     = inr (reset 300 301 completed).2.
Proof.
  assert (H : MIN_QUESTIONS <= max_questions completed <= MAX_QUESTIONS)
    by (unfold MIN_QUESTIONS, MAX_QUESTIONS; simpl; lia).
  split; [exact H | apply (reset_is_construction completed 300 301 H)].
Defined.


Lemma summary_raises_on_partial_record :
  first_missing (history with_partial_record) = Some "explanation_score"
  /\ summary from_3_12 with_partial_record
     = (inl (KeyError "explanation_score"), with_partial_record).
Proof.
  split; [reflexivity|].
  apply (summary_raises_first_missing_key from_3_12 with_partial_record).
  - vm_compute. discriminate.
  - reflexivity.
Defined.

Lemma rejected_submission_raises_http :
  (submit_to completed 500).1
  = inl (HTTPException 400 "Assessment already completed")
  /\ exists code detail,
       HTTPException 400 "Assessment already completed"
       = HTTPException code detail.
Proof.
  assert (H : (submit_to completed 500).1
              = inl (HTTPException 400 "Assessment already completed"))
    by reflexivity.
  split; [exact H|].
  apply (handlers_raise_only_http from_3_12 always_truthy (option string)
           next_question_bank score_response_unavailable None 500 a_request
           "" 0 0 (one_session completed)).
  left. exact H.
Defined.

Lemma handlers_leave_other_session :
  let SESSIONS := <["another" := fresh15]> (one_session completed) in
  (answer from_3_12 always_truthy (option string) next_question_bank
     score_response_unavailable None 500 a_request SESSIONS).2 !! "another"
  = SESSIONS !! "another"
  /\ (start (option string) next_question_bank None "new" 500 500 SESSIONS).2
       !! "another"
     = SESSIONS !! "another"
  /\ (end_session "new" SESSIONS).2 !! "another" = SESSIONS !! "another".
Proof.
  apply (handlers_leave_other_sessions from_3_12 always_truthy (option string)
           next_question_bank score_response_unavailable None 500 a_request
           "new" "another" 500 500).
  - discriminate.
  - discriminate.
Defined.

Lemma unregistered_session_is_404_empty :
  answer from_3_12 always_truthy (option string) next_question_bank
    score_response_unavailable None 500 a_request ∅
  = (inl (HTTPException 404
            "Session not found. Please start a new assessment."), ∅)
  /\ get_session_status (session_id a_request)
       (∅ : gmap string (SessionState string))
     = (inl (HTTPException 404 "Session not found"), ∅)
  /\ end_session (session_id a_request)
       (∅ : gmap string (SessionState string))
     = (inl (HTTPException 404 "Session not found"), ∅).
Proof.
  apply (unregistered_session_is_404 from_3_12 always_truthy (option string)
           next_question_bank score_response_unavailable None 500 a_request
           ∅).
  apply lookup_empty.
Defined.

Lemma start_then_end_session_exhausted_bank :
  (start (option string) next_question_bank None "new" 500 500
     (one_session completed)).1
  = inl (HTTPException 500 "Failed to load initial question")
  /\ end_session "new"
       (start (option string) next_question_bank None "new" 500 500
          (one_session completed)).2
     = (inr (<["message" := "Session ended"]> ∅), one_session completed).
Proof.
  split; [reflexivity|].
  apply (start_then_end_session (option string) next_question_bank None
           "new" 500 500 (one_session completed)).
  reflexivity.
Defined.

Lemma health_counts_one_more_after_start :
  exists h',
    (health_check (inr tt)
       (start (option string) next_question_bank None "new" 500 500
          (one_session completed)).2).1 = inr h'
    /\ active_sessions h' = Z.of_nat (size (one_session completed)) + 1.
Proof.
  apply (proj1 (proj2 (health_counts_sessions (option string)
                         next_question_bank (inr tt) None "new" 500 500
                         (one_session completed)))).
  reflexivity.
Defined.

Lemma answer_finished_response_last_question :
  exists (ev : evaluation) (summ : Summary) SESSIONS',
    submit_with judged last_question 1000
    = (inr (Finished ev summ), SESSIONS')
    /\ exists s s1,
         one_session last_question !! session_id a_request = Some s
         /\ finished s = false
         /\ score_response_judge judged (response_data a_request)
              (set_last_activity 1000 s)
            = (inr ev, s1)
         /\ finished s1 = true
         /\ (summary from_3_12 s1).1 = inr summ
         /\ responses summ = history s1
         /\ SESSIONS' = delete (session_id a_request)
                          (one_session last_question)
         /\ SESSIONS' !! session_id a_request = None.
Proof.
  eexists _, _, _.
  assert (H : submit_with judged last_question 1000
              = (inr (Finished (record_of 0 0.5 0.25) last_summary),
                 delete (session_id a_request) (one_session last_question)))
    by reflexivity.
  split; [exact H|].
  apply (answer_finished_response from_3_12 always_truthy engine_world
           next_question_engine score_response_judge judged 1000 a_request
           (one_session last_question) _ _ _ H).
Defined.

Lemma answer_next_question_response_two_answers :
  exists SESSIONS',
    submit_with judged two_answers 1000
    = (inr (NextQuestion (record_of 0 0.5 0.25) (Some "What is a dict?")),
       SESSIONS')
    /\ exists s s1 s2,
         one_session two_answers !! session_id a_request = Some s
         /\ finished s = false
         /\ score_response_judge judged (response_data a_request)
              (set_last_activity 1000 s)
            = (inr (record_of 0 0.5 0.25), s1)
         /\ finished s1 = false
         /\ next_question_engine judged s1 = (inr (Some "What is a dict?"), s2)
         /\ SESSIONS' = <[session_id a_request := s2]> (one_session two_answers).
Proof.
  eexists.
  assert (H : submit_with judged two_answers 1000
              = (inr (NextQuestion (record_of 0 0.5 0.25)
                        (Some "What is a dict?")),
                 <[session_id a_request :=
                     (next_question_engine judged
                        (score_response_judge judged (response_data a_request)
                           (set_last_activity 1000 two_answers)).2).2]>
                   (one_session two_answers)))
    by reflexivity.
  split; [exact H|].
  apply (answer_next_question_response from_3_12 always_truthy engine_world
           next_question_engine score_response_judge judged 1000 a_request
           (one_session two_answers) _ _ _ H).
Defined.

Lemma answer_last_question_judged :
  exists summ : Summary,
    submit_with judged last_question 1000
    = (inr (Finished (record_of 0 0.5 0.25) summ),
       delete (session_id a_request) (one_session last_question))
    /\ responses summ = [record_of 1 1 1; record_of 0 0.5 0.25]
    /\ final_score summ = PyFloat (float_mean from_3_12 [1; 0.25]%float)
    /\ average_accuracy summ = PyFloat (float_mean from_3_12 [1; 0]%float)
    /\ average_explanation summ
       = PyFloat (float_mean from_3_12 [1; 0.5]%float).
Proof.
  apply (answer_last_question from_3_12 always_truthy engine_world
           next_question_engine score_response_judge judged 1000 a_request
           (one_session last_question) last_question
           (record_of 0 0.5 0.25)
           (score_response_judge judged (response_data a_request)
              (set_last_activity 1000 last_question)).2
           [1; 0]%float [1; 0.5]%float [1; 0.25]%float).
  - apply lookup_singleton_eq.
  - reflexivity.
  - reflexivity.
  - reflexivity.
  - reflexivity.
  - reflexivity.
  - simpl. lia.
  - vm_compute. discriminate.
  - reflexivity.
  - reflexivity.
  - reflexivity.
Defined.

Lemma answer_unformattable_final_score_misjudged :
  exists detail,
    submit_with misjudged two_answers 1000
    = (inl (HTTPException 500 detail),
       <[session_id a_request :=
           (score_response_judge misjudged (response_data a_request)
              (set_last_activity 1000 two_answers)).2]>
         (one_session two_answers))
    /\ length (history (score_response_judge misjudged
                          (response_data a_request)
                          (set_last_activity 1000 two_answers)).2) = 3%nat.
Proof.
  destruct (answer_unformattable_final_score from_3_12 always_truthy engine_world
              next_question_engine score_response_judge misjudged 1000
              a_request (one_session two_answers) two_answers
              (<["final_score" := PyStr "n/a"]> (record_of 0 0 0))
              (score_response_judge misjudged (response_data a_request)
                 (set_last_activity 1000 two_answers)).2)
    as [detail H].
  - apply lookup_singleton_eq.
  - reflexivity.
  - reflexivity.
  - reflexivity.
  - reflexivity.
  - exists detail. split; [exact H | reflexivity].
Defined.

Lemma rejected_answer_keeps_status_completed :
  (get_session_status (session_id a_request) (submit_to completed 500).2).1
  = (get_session_status (session_id a_request) (one_session completed)).1.
Proof.
  apply (rejected_answer_keeps_status from_3_12 always_truthy (option string)
           next_question_bank score_response_unavailable None 500 a_request
           (one_session completed) completed).
  - apply lookup_singleton_eq.
  - left. reflexivity.
Defined.

Lemma start_response_with_bank :
  exists (resp : StartResponse (Question := string)) SESSIONS',
    start (option string) next_question_bank (Some "What is a list?")
      "new" 500 501 ∅
    = (inr resp, SESSIONS')
    /\ start_session_id resp = "new"
    /\ exists s1,
         next_question_bank (Some "What is a list?") (default_session 500 501)
         = (inr (Some (start_question resp)), s1)
         /\ SESSIONS' = <["new" := s1]> ∅.
Proof.
  eexists _, _.
  assert (H : start (option string) next_question_bank
                (Some "What is a list?") "new" 500 501 ∅
              = (inr {| start_session_id := "new";
                        start_question := "What is a list?" |},
                 <["new" := (next_question_bank (Some "What is a list?")
                               (default_session 500 501)).2]> ∅))
    by reflexivity.
  split; [exact H|].
  apply (start_response (option string) next_question_bank
           (Some "What is a list?") "new" 500 501 ∅ _ _ H).
Defined.

Lemma cleanup_rounds_compose_completed :
  (cleanup_round (200 + ninety_minutes)
     (cleanup_round 300 (one_session completed)).2).2
  = (cleanup_round (200 + ninety_minutes) (one_session completed)).2.
Proof.
  apply (cleanup_rounds_compose 300 (200 + ninety_minutes)
           (one_session completed)).
  unfold ninety_minutes. lia.
Defined.

Lemma rejected_answer_postpones_cleanup_completed :
  (cleanup_round (200 + ninety_minutes) (one_session completed)).2
    !! session_id a_request = None
  /\ (cleanup_round (200 + ninety_minutes)
        (submit_to completed (200 + ninety_minutes - 1)).2).2
       !! session_id a_request
     = Some (set_last_activity (200 + ninety_minutes - 1) completed).
Proof.
  split.
  - destruct (_ !! _) as [s|] eqn:Hs; [|reflexivity].
    apply cleanup_round_lookup in Hs as [Hs Hle].
    unfold one_session in Hs. rewrite lookup_singleton_eq in Hs.
    injection Hs as <-. simpl in Hle.
    unfold ninety_minutes, timedelta in Hle. lia.
  - apply (rejected_answer_postpones_cleanup from_3_12 always_truthy (option string)
             next_question_bank score_response_unavailable None
             (200 + ninety_minutes - 1) a_request (200 + ninety_minutes)
             (one_session completed) completed).
    + apply lookup_singleton_eq.
    + left. reflexivity.
    + unfold ninety_minutes, timedelta. lia.
Defined.

Lemma startup_event_with_key :
  startup_event (Some "sk-test") (inr tt) = inr tt.
Proof.
  apply (proj2 (proj1 (startup_event_outcomes (Some "sk-test") (inr tt)))).
  split; [|reflexivity].
  exists "sk-test". split; [reflexivity | discriminate].
Defined.
